(** * pgl event listener: a shallow embedding of [_pglEventListener.cpp]

    The C extension keeps its whole state in file-level globals, talks to the
    Python runtime through the C API and is driven by the macOS event tap.
    The embedding below keeps that shape: one record [World] for the globals
    and the parts of the Python runtime and of the operating system the code
    touches, one Rocq function per C function, explicit state passing, and
    the environment's answers (permission check, thread creation, the
    behaviour of the Python callback) taken as arguments. *)

From Stdlib Require Import ZArith PrimFloat SpecFloat FloatOps.
From stdpp Require Import gmap strings list fin_maps pretty.

Open Scope Z_scope.

(** ** C integer types *)

(** [CGKeyCode] is [uint16_t]; a cast to it keeps the low 16 bits. *)
Definition CGKeyCode_of (z : Z) : Z := z mod 2 ^ 16.

(** [(int)] applied to a [long]: two's complement wrap-around to 32 bits. *)
Definition int_of_long (z : Z) : Z := (z + 2 ^ 31) mod 2 ^ 32 - 2 ^ 31.

Definition LONG_MIN : Z := - 2 ^ 63.
Definition LONG_MAX : Z := 2 ^ 63 - 1.

(** [(double)] applied to a [uint64_t]: round to nearest, ties to even. *)
Definition double_of_uint64 (n : Z) : float :=
  SF2Prim (binary_normalize prec emax n 0 false).

(** ** Python objects, as far as the extension looks at them *)

Definition objid := positive.

#[warnings="-register-all"]
Inductive PyObject : Type :=
  | PyNone
  | PyBool (b : bool)
  | PyLong (z : Z)
  | PyFloat (f : float)
  | PyUnicode (s : string)
  | PyList (items : list PyObject)
  | PyFunction (id : objid).

Inductive PyExcType : Type :=
  | PyExc_TypeError
  | PyExc_ValueError
  | PyExc_RuntimeError
  | PyExc_PermissionError
  | PyExc_OverflowError
  | PyExc_SystemExit
  | PyExc_Other (name : string).

Record PyErr : Type := mkPyErr { exc_type : PyExcType; exc_msg : string }.

(** A dict with string keys, as built by [PyDict_SetItemString]. *)
Abbreviation PyDict := (gmap string PyObject).

Definition PyDict_New : PyDict := ∅.

Definition PyDict_SetItemString (d : PyDict) (key : string) (v : PyObject) : PyDict :=
  <[key := v]> d.

Definition PyCallable_Check (o : PyObject) : bool :=
  match o with PyFunction _ => true | _ => false end.

Definition PyList_Check (o : PyObject) : bool :=
  match o with PyList _ => true | _ => false end.

(** [bool] is a subclass of [int], so [PyLong_Check] accepts it. *)
Definition PyLong_Check (o : PyObject) : bool :=
  match o with PyLong _ | PyBool _ => true | _ => false end.

Definition PyBool_FromLong (v : Z) : PyObject := PyBool (negb (v =? 0)).

Definition PyLong_FromLong (v : Z) : PyObject := PyLong v.

Definition PyFloat_FromDouble (f : float) : PyObject := PyFloat f.

Definition PyUnicode_FromString (s : string) : PyObject := PyUnicode s.

(** What a call of a Python callable gives back to C: a result object, or
    [NULL] with an exception set. *)
Inductive CallOutcome : Type :=
  | Returned (result : PyObject)
  | Raised (e : PyErr).

(** ** Quartz events *)

(** Event type numbers and flag masks. The extension takes them from the
    platform header [CGEventTypes.h], which is not part of the repository;
    the values below are the ones that header fixes. *)
Definition kCGEventNull : Z := 0.
Definition kCGEventLeftMouseDown : Z := 1.
Definition kCGEventLeftMouseUp : Z := 2.
Definition kCGEventRightMouseDown : Z := 3.
Definition kCGEventRightMouseUp : Z := 4.
Definition kCGEventMouseMoved : Z := 5.
Definition kCGEventLeftMouseDragged : Z := 6.
Definition kCGEventRightMouseDragged : Z := 7.
Definition kCGEventKeyDown : Z := 10.
Definition kCGEventKeyUp : Z := 11.
Definition kCGEventFlagsChanged : Z := 12.
Definition kCGEventScrollWheel : Z := 22.
Definition kCGEventOtherMouseDown : Z := 25.
Definition kCGEventOtherMouseUp : Z := 26.
Definition kCGEventOtherMouseDragged : Z := 27.
Definition kCGEventTapDisabledByTimeout : Z := 0xFFFFFFFE.

Definition kCGEventFlagMaskAlphaShift : Z := 0x00010000.
Definition kCGEventFlagMaskShift : Z := 0x00020000.
Definition kCGEventFlagMaskControl : Z := 0x00040000.
Definition kCGEventFlagMaskAlternate : Z := 0x00080000.
Definition kCGEventFlagMaskCommand : Z := 0x00100000.

Inductive CGEventField : Type :=
  | kCGMouseEventClickState
  | kCGMouseEventButtonNumber
  | kCGKeyboardEventKeycode
  | kCGKeyboardEventKeyboardType.

Record CGPoint : Type := mkCGPoint { x : float; y : float }.

(** The raw event: what the accessors used by the callback read from it.
    Integer fields are [int64_t], the timestamp and the flags [uint64_t]. *)
Record CGEvent : Type := mkCGEvent {
  ev_timestamp : Z;
  ev_flags : Z;
  ev_location : CGPoint;
  ev_clickState : Z;
  ev_buttonNumber : Z;
  ev_keycode : Z;
  ev_keyboardType : Z
}.

Definition CGEventGetTimestamp (e : CGEvent) : Z := ev_timestamp e.
Definition CGEventGetFlags (e : CGEvent) : Z := ev_flags e.
Definition CGEventGetLocation (e : CGEvent) : CGPoint := ev_location e.

Definition CGEventGetIntegerValueField (e : CGEvent) (f : CGEventField) : Z :=
  match f with
  | kCGMouseEventClickState => ev_clickState e
  | kCGMouseEventButtonNumber => ev_buttonNumber e
  | kCGKeyboardEventKeycode => ev_keycode e
  | kCGKeyboardEventKeyboardType => ev_keyboardType e
  end.

(** ** The globals of the extension and the world around them *)

Definition MAX_EAT_KEYS : Z := 1024.

Record World : Type := mkWorld {
  (* file-level globals *)
  eventTap : option Z;            (* CFMachPortRef, [None] is NULL *)
  runLoop : option Z;             (* CFRunLoopRef, [None] is NULL *)
  eventThread : nat;              (* pthread_t: number of the thread *)
  callbackObj : option PyObject;  (* PyObject*, [None] is NULL *)
  listenerRunning : Z;
  eatKeysMutex : bool;            (* initialised and not destroyed *)
  eatKeys : list Z;               (* int[MAX_EAT_KEYS] *)
  numEatKeys : Z;
  (* Python runtime *)
  ob_refcnt : gmap objid nat;     (* reference counts of function objects *)
  curexc : option PyErr;          (* error indicator of the calling thread *)
  tapexc : option PyErr;          (* error indicator of the capture thread *)
  pystderr : list PyErr;          (* tracebacks written by PyErr_Print *)
  calls : list (PyObject * PyDict); (* calls made into Python, oldest first *)
  (* operating system *)
  threadsCreated : nat;
  threadsJoined : nat;
  exited : bool                   (* the process has called exit *)
}.

(** The state right after the module is loaded: statics are zeroed. *)
Definition initial (refs : gmap objid nat) : World :=
  {| eventTap := None; runLoop := None; eventThread := 0%nat;
     callbackObj := None; listenerRunning := 0; eatKeysMutex := false;
     eatKeys := replicate (Z.to_nat MAX_EAT_KEYS) 0; numEatKeys := 0;
     ob_refcnt := refs; curexc := None; tapexc := None; pystderr := [];
     calls := []; threadsCreated := 0%nat; threadsJoined := 0%nat;
     exited := false |}.

Definition set_eventTap (v : option Z) (w : World) : World :=
  mkWorld v (runLoop w) (eventThread w) (callbackObj w) (listenerRunning w)
    (eatKeysMutex w) (eatKeys w) (numEatKeys w) (ob_refcnt w) (curexc w)
    (tapexc w) (pystderr w) (calls w) (threadsCreated w) (threadsJoined w)
    (exited w).

Definition set_runLoop (v : option Z) (w : World) : World :=
  mkWorld (eventTap w) v (eventThread w) (callbackObj w) (listenerRunning w)
    (eatKeysMutex w) (eatKeys w) (numEatKeys w) (ob_refcnt w) (curexc w)
    (tapexc w) (pystderr w) (calls w) (threadsCreated w) (threadsJoined w)
    (exited w).

Definition set_eventThread (v : nat) (w : World) : World :=
  mkWorld (eventTap w) (runLoop w) v (callbackObj w) (listenerRunning w)
    (eatKeysMutex w) (eatKeys w) (numEatKeys w) (ob_refcnt w) (curexc w)
    (tapexc w) (pystderr w) (calls w) (threadsCreated w) (threadsJoined w)
    (exited w).

Definition set_callbackObj (v : option PyObject) (w : World) : World :=
  mkWorld (eventTap w) (runLoop w) (eventThread w) v (listenerRunning w)
    (eatKeysMutex w) (eatKeys w) (numEatKeys w) (ob_refcnt w) (curexc w)
    (tapexc w) (pystderr w) (calls w) (threadsCreated w) (threadsJoined w)
    (exited w).

Definition set_listenerRunning (v : Z) (w : World) : World :=
  mkWorld (eventTap w) (runLoop w) (eventThread w) (callbackObj w) v
    (eatKeysMutex w) (eatKeys w) (numEatKeys w) (ob_refcnt w) (curexc w)
    (tapexc w) (pystderr w) (calls w) (threadsCreated w) (threadsJoined w)
    (exited w).

Definition set_eatKeysMutex (v : bool) (w : World) : World :=
  mkWorld (eventTap w) (runLoop w) (eventThread w) (callbackObj w)
    (listenerRunning w) v (eatKeys w) (numEatKeys w) (ob_refcnt w)
    (curexc w) (tapexc w) (pystderr w) (calls w) (threadsCreated w)
    (threadsJoined w) (exited w).

Definition set_eatKeys (v : list Z) (w : World) : World :=
  mkWorld (eventTap w) (runLoop w) (eventThread w) (callbackObj w)
    (listenerRunning w) (eatKeysMutex w) v (numEatKeys w) (ob_refcnt w)
    (curexc w) (tapexc w) (pystderr w) (calls w) (threadsCreated w)
    (threadsJoined w) (exited w).

Definition set_numEatKeys (v : Z) (w : World) : World :=
  mkWorld (eventTap w) (runLoop w) (eventThread w) (callbackObj w)
    (listenerRunning w) (eatKeysMutex w) (eatKeys w) v (ob_refcnt w)
    (curexc w) (tapexc w) (pystderr w) (calls w) (threadsCreated w)
    (threadsJoined w) (exited w).

Definition set_ob_refcnt (v : gmap objid nat) (w : World) : World :=
  mkWorld (eventTap w) (runLoop w) (eventThread w) (callbackObj w)
    (listenerRunning w) (eatKeysMutex w) (eatKeys w) (numEatKeys w) v
    (curexc w) (tapexc w) (pystderr w) (calls w) (threadsCreated w)
    (threadsJoined w) (exited w).

Definition set_curexc (v : option PyErr) (w : World) : World :=
  mkWorld (eventTap w) (runLoop w) (eventThread w) (callbackObj w)
    (listenerRunning w) (eatKeysMutex w) (eatKeys w) (numEatKeys w)
    (ob_refcnt w) v (tapexc w) (pystderr w) (calls w) (threadsCreated w)
    (threadsJoined w) (exited w).

Definition set_tapexc (v : option PyErr) (w : World) : World :=
  mkWorld (eventTap w) (runLoop w) (eventThread w) (callbackObj w)
    (listenerRunning w) (eatKeysMutex w) (eatKeys w) (numEatKeys w)
    (ob_refcnt w) (curexc w) v (pystderr w) (calls w) (threadsCreated w)
    (threadsJoined w) (exited w).

Definition set_pystderr (v : list PyErr) (w : World) : World :=
  mkWorld (eventTap w) (runLoop w) (eventThread w) (callbackObj w)
    (listenerRunning w) (eatKeysMutex w) (eatKeys w) (numEatKeys w)
    (ob_refcnt w) (curexc w) (tapexc w) v (calls w) (threadsCreated w)
    (threadsJoined w) (exited w).

Definition set_calls (v : list (PyObject * PyDict)) (w : World) : World :=
  mkWorld (eventTap w) (runLoop w) (eventThread w) (callbackObj w)
    (listenerRunning w) (eatKeysMutex w) (eatKeys w) (numEatKeys w)
    (ob_refcnt w) (curexc w) (tapexc w) (pystderr w) v (threadsCreated w)
    (threadsJoined w) (exited w).

Definition set_threadsCreated (v : nat) (w : World) : World :=
  mkWorld (eventTap w) (runLoop w) (eventThread w) (callbackObj w)
    (listenerRunning w) (eatKeysMutex w) (eatKeys w) (numEatKeys w)
    (ob_refcnt w) (curexc w) (tapexc w) (pystderr w) (calls w) v
    (threadsJoined w) (exited w).

Definition set_threadsJoined (v : nat) (w : World) : World :=
  mkWorld (eventTap w) (runLoop w) (eventThread w) (callbackObj w)
    (listenerRunning w) (eatKeysMutex w) (eatKeys w) (numEatKeys w)
    (ob_refcnt w) (curexc w) (tapexc w) (pystderr w) (calls w)
    (threadsCreated w) v (exited w).

Definition set_exited (v : bool) (w : World) : World :=
  mkWorld (eventTap w) (runLoop w) (eventThread w) (callbackObj w)
    (listenerRunning w) (eatKeysMutex w) (eatKeys w) (numEatKeys w)
    (ob_refcnt w) (curexc w) (tapexc w) (pystderr w) (calls w)
    (threadsCreated w) (threadsJoined w) v.

(** ** Python runtime operations on the world *)

Definition PyErr_SetString (t : PyExcType) (msg : string) (w : World) : World :=
  set_curexc (Some (mkPyErr t msg)) w.

Definition refcnt (w : World) (id : objid) : nat :=
  default 0%nat (ob_refcnt w !! id).

(** Reference counts are followed for function objects, the only objects the
    extension keeps; the others are left to the runtime. In particular the
    values [eventCallback] creates for its dictionary, whose references it
    does not give back, are not counted. *)
Definition Py_INCREF (o : PyObject) (w : World) : World :=
  match o with
  | PyFunction id => set_ob_refcnt (<[id := S (refcnt w id)]> (ob_refcnt w)) w
  | _ => w
  end.

Definition Py_DECREF (o : PyObject) (w : World) : World :=
  match o with
  | PyFunction id => set_ob_refcnt (<[id := pred (refcnt w id)]> (ob_refcnt w)) w
  | _ => w
  end.

Definition Py_XDECREF (o : option PyObject) (w : World) : World :=
  match o with
  | Some o' => Py_DECREF o' w
  | None => w
  end.

(** [PyArg_ParseTuple(args, "O", &obj)]: exactly one argument, of any type. *)
Definition PyArg_ParseTuple_O (args : list PyObject) (w : World)
  : option PyObject * World :=
  match args with
  | [obj] => (Some obj, w)
  | _ =>
      (None,
       PyErr_SetString PyExc_TypeError
         ("function takes exactly 1 argument (" +:+ pretty (length args) +:+ " given)") w)
  end.

(** [PyLong_AsLong]: the value if it fits a C [long]; otherwise -1 with
    [OverflowError] set. The code calls it only after [PyLong_Check]. *)
Definition PyLong_AsLong (o : PyObject) (w : World) : Z * World :=
  match o with
  | PyLong z =>
      if (LONG_MIN <=? z) && (z <=? LONG_MAX) then (z, w)
      else (-1, PyErr_SetString PyExc_OverflowError
                  "Python int too large to convert to C long" w)
  | PyBool b => (if b then 1 else 0, w)
  | _ => (-1, PyErr_SetString PyExc_TypeError "an integer is required" w)
  end.

(** ** The extension's functions *)

(** In the functions below [pthread_mutex_lock] and [pthread_mutex_unlock]
    leave no trace: every function runs as one step, so a critical section
    is never interleaved with another one. *)

(** [pthread_create]: [err] is its return value, chosen by the system. *)
Definition pthread_create (err : Z) (w : World) : World :=
  if err =? 0 then
    set_eventThread (S (threadsCreated w))
      (set_threadsCreated (S (threadsCreated w)) w)
  else w.

Definition pthread_join (w : World) : World :=
  set_threadsJoined (S (threadsJoined w)) w.

(** [listenerStart]. [trusted] is the answer of [AXIsProcessTrusted()],
    [err] the return value of [pthread_create]. The result is the returned
    [PyObject*], [None] for NULL. *)
Definition listenerStart (trusted : bool) (err : Z) (args : list PyObject)
    (w : World) : option PyObject * World :=
  match PyArg_ParseTuple_O args w with
  | (None, w) => (None, w)
  | (Some callback, w) =>
      if negb (PyCallable_Check callback) then
        (None, PyErr_SetString PyExc_TypeError "Callback must be callable" w)
      else if negb (listenerRunning w =? 0) then
        (None, PyErr_SetString PyExc_RuntimeError "Listener already running" w)
      else if negb trusted then
        (None,
         PyErr_SetString PyExc_PermissionError
           ("Accessibility permission required. Go to System Preferences > " +:+
            "Security & Privacy > Privacy > Accessibility and add Python/Terminal") w)
      else
        let w := set_eatKeysMutex true w in
        let w := set_numEatKeys 0 w in
        let w := Py_INCREF callback w in
        let w := Py_XDECREF (callbackObj w) w in
        let w := set_callbackObj (Some callback) w in
        let w := pthread_create err w in
        if negb (err =? 0) then
          (* Py_DECREF(callbackObj): the pointer was stored just above *)
          let w := Py_XDECREF (callbackObj w) w in
          let w := set_callbackObj None w in
          let w := set_eatKeysMutex false w in
          (None, PyErr_SetString PyExc_RuntimeError "Failed to create thread" w)
        else
          let w := set_listenerRunning 1 w in
          (Some PyNone, w)
  end.

(** [listenerStop] (METH_NOARGS). [CFRunLoopStop] only signals the capture
    thread, which is then joined; the tap, when there is one, is disabled
    and released, and the pointer is NULL afterwards in either case. *)
Definition listenerStop (w : World) : option PyObject * World :=
  if listenerRunning w =? 0 then (Some PyNone, w)
  else
    let w := pthread_join w in
    let w := set_eventTap None w in
    let w := Py_XDECREF (callbackObj w) w in
    let w := set_callbackObj None w in
    let w := set_listenerRunning 0 w in
    let w := set_runLoop None w in
    let w := set_eatKeysMutex false w in
    (Some PyNone, w).

Definition listenerIsRunning (w : World) : PyObject :=
  PyBool_FromLong (listenerRunning w).

(** The [for] loop of [listenerSetEatKeys], from item [i] on: [items] are the
    list's elements not yet visited. *)
Fixpoint listenerSetEatKeys_loop (items : list PyObject) (w : World)
    : option PyObject * World :=
  match items with
  | [] => (Some PyNone, w)
  | item :: rest =>
      if negb (PyLong_Check item) then
        (None, PyErr_SetString PyExc_TypeError "All items must be integers" w)
      else
        let '(v, w) := PyLong_AsLong item w in
        let i := numEatKeys w in
        let w := set_numEatKeys (i + 1) w in
        let w := set_eatKeys (<[Z.to_nat i := int_of_long v]> (eatKeys w)) w in
        listenerSetEatKeys_loop rest w
  end.

Definition listenerSetEatKeys (args : list PyObject) (w : World)
    : option PyObject * World :=
  match PyArg_ParseTuple_O args w with
  | (None, w) => (None, w)
  | (Some keyList, w) =>
      match keyList with
      | PyList items =>
          let listSize := Z.of_nat (length items) in
          if MAX_EAT_KEYS <? listSize then
            (None,
             PyErr_SetString PyExc_ValueError
               ("Too many keys to eat (max " +:+ pretty MAX_EAT_KEYS +:+ ")") w)
          else
            let w := set_numEatKeys 0 w in
            listenerSetEatKeys_loop items w
      | _ =>
          (None, PyErr_SetString PyExc_TypeError "Argument must be a list" w)
      end
  end.

(** The [for] loop of [shouldEatKey]: [n] iterations are left and the next
    index is [i]. A read past the array finds no key. *)
Fixpoint shouldEatKey_loop (keys : list Z) (keyCode : Z) (n i : nat) : Z :=
  match n with
  | O => 0
  | S n' =>
      match keys !! i with
      | Some k =>
          if k =? keyCode then 1 else shouldEatKey_loop keys keyCode n' (S i)
      | None => shouldEatKey_loop keys keyCode n' (S i)
      end
  end.

Definition shouldEatKey (keyCode : Z) (w : World) : Z :=
  shouldEatKey_loop (eatKeys w) keyCode (Z.to_nat (numEatKeys w)) 0.

(** The event mask built by [eventLoopThread]. *)
Definition eventMask : Z :=
  Z.lor (Z.shiftl 1 kCGEventKeyDown)
  (Z.lor (Z.shiftl 1 kCGEventKeyUp)
  (Z.lor (Z.shiftl 1 kCGEventLeftMouseDown)
  (Z.lor (Z.shiftl 1 kCGEventLeftMouseUp)
  (Z.lor (Z.shiftl 1 kCGEventRightMouseDown)
  (Z.lor (Z.shiftl 1 kCGEventRightMouseUp)
  (Z.lor (Z.shiftl 1 kCGEventOtherMouseDown)
  (Z.lor (Z.shiftl 1 kCGEventOtherMouseUp)
  (Z.lor (Z.shiftl 1 kCGEventMouseMoved)
  (Z.lor (Z.shiftl 1 kCGEventLeftMouseDragged)
         (Z.shiftl 1 kCGEventRightMouseDragged)))))))))).

(** [eventLoopThread] up to the point where it enters the run loop. [tap] is
    what [CGEventTapCreate] returns and [loop] what [CFRunLoopGetCurrent]
    returns. *)
Definition eventLoopThread (tap : option Z) (loop : Z) (w : World) : World :=
  let w := set_eventTap tap w in
  match tap with
  | None => w
  | Some _ => set_runLoop (Some loop) w
  end.

(** ** The per-event callback *)

Definition is_key_type (type : Z) : bool :=
  (type =? kCGEventKeyDown) || (type =? kCGEventKeyUp).

Definition is_button_type (type : Z) : bool :=
  (type =? kCGEventLeftMouseDown) || (type =? kCGEventLeftMouseUp) ||
  (type =? kCGEventRightMouseDown) || (type =? kCGEventRightMouseUp) ||
  (type =? kCGEventOtherMouseDown) || (type =? kCGEventOtherMouseUp).

Definition is_motion_type (type : Z) : bool :=
  (type =? kCGEventMouseMoved) || (type =? kCGEventLeftMouseDragged) ||
  (type =? kCGEventRightMouseDragged).

(** The [typeStr] chains of the button and motion branches; [None] is the
    NULL the variable starts with. *)
Definition button_typeStr (type : Z) : option string :=
  if type =? kCGEventLeftMouseDown then Some "leftMouseDown"
  else if type =? kCGEventLeftMouseUp then Some "leftMouseUp"
  else if type =? kCGEventRightMouseDown then Some "rightMouseDown"
  else if type =? kCGEventRightMouseUp then Some "rightMouseUp"
  else if type =? kCGEventOtherMouseDown then Some "otherMouseDown"
  else if type =? kCGEventOtherMouseUp then Some "otherMouseUp"
  else None.

Definition motion_typeStr (type : Z) : option string :=
  if type =? kCGEventMouseMoved then Some "mouseMoved"
  else if type =? kCGEventLeftMouseDragged then Some "leftMouseDragged"
  else if type =? kCGEventRightMouseDragged then Some "rightMouseDragged"
  else None.

(** [PyDict_SetItemString(d, "eventType", PyUnicode_FromString(typeStr))].
    With [typeStr] NULL no entry is made; the two branches that use it are
    entered only for types their chain names (see [button_typeStr_Some] and
    [motion_typeStr_Some]). *)
Definition set_eventType (d : PyDict) (typeStr : option string) : PyDict :=
  match typeStr with
  | Some s => PyDict_SetItemString d "eventType" (PyUnicode_FromString s)
  | None => d
  end.

(** The dictionary [eventDict] that [eventCallback] builds for the event. *)
Definition eventDict (type : Z) (event : CGEvent) : PyDict :=
  let d := PyDict_New in
  let timestamp := (double_of_uint64 (CGEventGetTimestamp event) / 1e9)%float in
  let d := PyDict_SetItemString d "timestamp" (PyFloat_FromDouble timestamp) in
  if is_key_type type then
    let d := PyDict_SetItemString d "eventType"
      (PyUnicode_FromString (if type =? kCGEventKeyDown then "keydown" else "keyup")) in
    let keyCode := CGKeyCode_of (CGEventGetIntegerValueField event kCGKeyboardEventKeycode) in
    let d := PyDict_SetItemString d "keyCode" (PyLong_FromLong keyCode) in
    let keyboardType := CGEventGetIntegerValueField event kCGKeyboardEventKeyboardType in
    let d := PyDict_SetItemString d "keyboardType" (PyLong_FromLong keyboardType) in
    let flags := CGEventGetFlags event in
    let d := PyDict_SetItemString d "shift"
      (PyBool_FromLong (Z.land flags kCGEventFlagMaskShift)) in
    let d := PyDict_SetItemString d "control"
      (PyBool_FromLong (Z.land flags kCGEventFlagMaskControl)) in
    let d := PyDict_SetItemString d "alt"
      (PyBool_FromLong (Z.land flags kCGEventFlagMaskAlternate)) in
    let d := PyDict_SetItemString d "command"
      (PyBool_FromLong (Z.land flags kCGEventFlagMaskCommand)) in
    PyDict_SetItemString d "capsLock"
      (PyBool_FromLong (Z.land flags kCGEventFlagMaskAlphaShift))
  else if is_button_type type then
    let d := set_eventType d (button_typeStr type) in
    let button := CGEventGetIntegerValueField event kCGMouseEventButtonNumber in
    let d := PyDict_SetItemString d "button" (PyLong_FromLong button) in
    let clickState := CGEventGetIntegerValueField event kCGMouseEventClickState in
    let d := PyDict_SetItemString d "clickState" (PyLong_FromLong clickState) in
    let location := CGEventGetLocation event in
    let d := PyDict_SetItemString d "x" (PyFloat_FromDouble (x location)) in
    PyDict_SetItemString d "y" (PyFloat_FromDouble (y location))
  else if is_motion_type type then
    let d := set_eventType d (motion_typeStr type) in
    let location := CGEventGetLocation event in
    let d := PyDict_SetItemString d "x" (PyFloat_FromDouble (x location)) in
    PyDict_SetItemString d "y" (PyFloat_FromDouble (y location))
  else d.

(** [PyErr_Print] on the capture thread. For a pending [SystemExit] the
    runtime leaves through [exit] instead of printing: the call does not
    return and the process is gone, which the world records in [exited]
    (what [exit] itself writes for a non-integer exit value is not
    followed). For every other exception the traceback goes to stderr and
    the error indicator is cleared. *)
Definition PyErr_Print (w : World) : World :=
  match tapexc w with
  | Some e =>
      match exc_type e with
      | PyExc_SystemExit => set_exited true w
      | _ => set_tapexc None (set_pystderr (pystderr w ++ [e]) w)
      end
  | None => w
  end.

Section Dispatch.

(** How the Python callable behaves when called in a given world. *)
Variable pycall : World -> PyObject -> PyDict -> CallOutcome.

(** [PyObject_CallFunctionObjArgs(f, arg, NULL)] on the capture thread:
    a new reference to the result, or [None] for NULL with the exception
    left pending. The outcome is all the model takes from the callable:
    Python code that calls back into this module while it runs is not
    followed. *)
Definition PyObject_CallFunctionObjArgs (f : PyObject) (arg : PyDict)
    (w : World) : option PyObject * World :=
  let w' := set_calls (calls w ++ [(f, arg)]) w in
  match pycall w f arg with
  | Returned result => (Some result, Py_INCREF result w')
  | Raised e => (None, set_tapexc (Some e) w')
  end.

(** [eventCallback]. The result is the returned [CGEventRef]: [Some event]
    passes the event on, [None] (NULL) drops it. When [PyErr_Print] has
    left through [exit], the rest of the function is not run and nothing is
    returned to the system: the first component is then only the value the
    local [returnEvent] had (see [handler_outcome]). *)
Definition eventCallback (type : Z) (event : CGEvent) (w : World)
    : option CGEvent * World :=
  match callbackObj w with
  | None => (Some event, w)
  | Some cb =>
      let returnEvent :=
        if is_key_type type then
          let keyCode :=
            CGKeyCode_of (CGEventGetIntegerValueField event kCGKeyboardEventKeycode) in
          if negb (shouldEatKey keyCode w =? 0) then None else Some event
        else Some event in
      let d := eventDict type event in
      let '(result, w) := PyObject_CallFunctionObjArgs cb d w in
      let w :=
        match result with
        | None => PyErr_Print w
        | Some r => Py_DECREF r w
        end in
      (returnEvent, w)
  end.

End Dispatch.

(** ** Reading the model *)

Inductive Verdict : Type := Allow | Suppress.

Definition verdict_of (returnEvent : option CGEvent) : Verdict :=
  match returnEvent with
  | Some _ => Allow
  | None => Suppress
  end.



(** The suppression registry: the first [numEatKeys] cells of [eatKeys]. *)
Definition registry (w : World) : list Z :=
  take (Z.to_nat (numEatKeys w)) (eatKeys w).

(** The key code of an event, as the callback reads it. *)
Definition keyCode_of (event : CGEvent) : Z :=
  CGKeyCode_of (CGEventGetIntegerValueField event kCGKeyboardEventKeycode).

(** The verdict is fixed by the event and the registry before the Python
    callback is called. *)
Definition verdict_before_dispatch (type : Z) (event : CGEvent) (w : World) : Verdict :=
  if is_key_type type && negb (shouldEatKey (keyCode_of event) w =? 0)
  then Suppress else Allow.

(** The category tag of every event type the tap accepts, as the design's
    data model lists them: two key tags, six button tags, three motion tags. *)
Definition category_tag (type : Z) : option string :=
  (list_to_map
     [ (kCGEventKeyDown, "keydown"); (kCGEventKeyUp, "keyup");
       (kCGEventLeftMouseDown, "leftMouseDown"); (kCGEventLeftMouseUp, "leftMouseUp");
       (kCGEventRightMouseDown, "rightMouseDown"); (kCGEventRightMouseUp, "rightMouseUp");
       (kCGEventOtherMouseDown, "otherMouseDown"); (kCGEventOtherMouseUp, "otherMouseUp");
       (kCGEventMouseMoved, "mouseMoved"); (kCGEventLeftMouseDragged, "leftMouseDragged");
       (kCGEventRightMouseDragged, "rightMouseDragged") ] : gmap Z string) !! type.

(** The timestamp entry: nanoseconds as a double, divided by 1e9. *)
Definition timestamp_of (event : CGEvent) : PyObject :=
  PyFloat (double_of_uint64 (ev_timestamp event) / 1e9)%float.

(** The records of the design's data model, one per category, as the
    string-keyed mapping delivered to the callback. *)
Definition key_record (tag : string) (event : CGEvent) : PyDict :=
  {[ "timestamp" := timestamp_of event;
     "eventType" := PyUnicode tag;
     "keyCode" := PyLong (keyCode_of event);
     "keyboardType" := PyLong (ev_keyboardType event);
     "shift" := PyBool (Z.testbit (ev_flags event) 17);
     "control" := PyBool (Z.testbit (ev_flags event) 18);
     "alt" := PyBool (Z.testbit (ev_flags event) 19);
     "command" := PyBool (Z.testbit (ev_flags event) 20);
     "capsLock" := PyBool (Z.testbit (ev_flags event) 16) ]}.

Definition button_record (tag : string) (event : CGEvent) : PyDict :=
  {[ "timestamp" := timestamp_of event;
     "eventType" := PyUnicode tag;
     "button" := PyLong (ev_buttonNumber event);
     "clickState" := PyLong (ev_clickState event);
     "x" := PyFloat (x (ev_location event));
     "y" := PyFloat (y (ev_location event)) ]}.

Definition motion_record (tag : string) (event : CGEvent) : PyDict :=
  {[ "timestamp" := timestamp_of event;
     "eventType" := PyUnicode tag;
     "x" := PyFloat (x (ev_location event));
     "y" := PyFloat (y (ev_location event)) ]}.

Definition minimal_record (event : CGEvent) : PyDict :=
  {[ "timestamp" := timestamp_of event ]}.

(** The event types the tap was created for. *)
Definition accepted_by_mask (type : Z) : bool := Z.testbit eventMask type.

(** A call failed with the given exception: NULL came back and the error
    indicator of the calling thread holds it. *)
Definition fails_with (r : option PyObject * World) (t : PyExcType) (msg : string) : Prop :=
  r.1 = None ∧ curexc r.2 = Some (mkPyErr t msg).

Definition TooMany (r : option PyObject * World) : Prop :=
  fails_with r PyExc_ValueError "Too many keys to eat (max 1024)".

Definition InvalidEntry (r : option PyObject * World) : Prop :=
  fails_with r PyExc_TypeError "All items must be integers".

Definition AlreadyRunning (r : option PyObject * World) : Prop :=
  fails_with r PyExc_RuntimeError "Listener already running".

Definition ThreadSpawnFailed (r : option PyObject * World) : Prop :=
  fails_with r PyExc_RuntimeError "Failed to create thread".

Arguments double_of_uint64 : simpl never.

(** A world to run examples in: one function object, number 1, held once by
    the caller. *)
Definition example_world : World := initial {[ 1%positive := 1%nat ]}.

Definition example_callback : PyObject := PyFunction 1%positive.

(** A callback that returns [None], and one that raises. *)
Definition quiet_callback : World -> PyObject -> PyDict -> CallOutcome :=
  fun _ _ _ => Returned PyNone.

Definition example_fault : PyErr := mkPyErr (PyExc_Other "KeyError") "oops".

Definition faulty_callback : World -> PyObject -> PyDict -> CallOutcome :=
  fun _ _ _ => Raised example_fault.



Definition key_event (code : Z) : CGEvent :=
  mkCGEvent 1500000000 0 (mkCGPoint 0 0) 0 0 code 40.

Definition mouse_event (px py : float) (button clicks : Z) : CGEvent :=
  mkCGEvent 2000000000 0 (mkCGPoint px py) clicks button 0 0.

(** The example world after a successful [start] and [setEatKeys([5, 12])]. *)
Definition running_world : World :=
  (listenerSetEatKeys [PyList [PyLong 5; PyLong 12]]
     (listenerStart true 0 [example_callback] example_world).2).2.

(** The longest prefix of a list whose items pass [PyLong_Check]: the items
    the loop of [listenerSetEatKeys] stores before it stops or ends. *)
Fixpoint int_prefix (items : list PyObject) : list PyObject :=
  match items with
  | item :: rest => if PyLong_Check item then item :: int_prefix rest else []
  | [] => []
  end.

(** The cell the loop writes for an item: [(int)PyLong_AsLong(item)]. The
    value does not depend on the world (see [PyLong_AsLong_value]). *)
Definition eaten_key (item : PyObject) : Z :=
  int_of_long (PyLong_AsLong item (initial ∅)).1.

(** An integer object whose value fits a C [long], and that value. *)
Definition fits_long (item : PyObject) : bool :=
  match item with
  | PyLong z => (LONG_MIN <=? z) && (z <=? LONG_MAX)
  | PyBool _ => true
  | _ => false
  end.

Definition int_value (item : PyObject) : Z :=
  match item with
  | PyLong z => z
  | PyBool b => if b then 1 else 0
  | _ => 0
  end.

(** The ranges of [CGKeyCode] (the platform's key-code type) and of [int]
    (the type of the registry's cells). *)
Definition representable_as_CGKeyCode (z : Z) : Prop := 0 ≤ z < 2 ^ 16.

Definition representable_as_int (z : Z) : Prop := - 2 ^ 31 ≤ z < 2 ^ 31.

(** Two worlds that differ at most in the registry and in the error
    indicator of the calling thread. *)
Definition same_outside_registry (w w' : World) : Prop :=
  eventTap w' = eventTap w ∧ runLoop w' = runLoop w
  ∧ eventThread w' = eventThread w ∧ callbackObj w' = callbackObj w
  ∧ listenerRunning w' = listenerRunning w ∧ eatKeysMutex w' = eatKeysMutex w
  ∧ ob_refcnt w' = ob_refcnt w ∧ tapexc w' = tapexc w
  ∧ pystderr w' = pystderr w ∧ calls w' = calls w
  ∧ threadsCreated w' = threadsCreated w ∧ threadsJoined w' = threadsJoined w
  ∧ exited w' = exited w.

(** The shape the C declarations give the registry: an array of
    [MAX_EAT_KEYS] cells and a count within it. *)
Definition registry_wf (w : World) : Prop :=
  length (eatKeys w) = Z.to_nat MAX_EAT_KEYS ∧ 0 ≤ numEatKeys w ≤ MAX_EAT_KEYS.

(** The worlds of the examples for keys set before [start]. *)
Definition stopped_with_keys : World :=
  (listenerSetEatKeys [PyList [PyLong 5]] example_world).2.

Definition started_after_keys : World :=
  (listenerStart true 0 [example_callback] stopped_with_keys).2.

(** ** Runs of the listener *)

(** The worlds the extension can be in: the module is loaded, then its four
    functions are called, the capture thread sets up its tap, and events
    arrive, in any order and with any answers from the environment. *)
Inductive reachable (pycall : World -> PyObject -> PyDict -> CallOutcome)
    : World -> Prop :=
  | reach_initial refs : reachable pycall (initial refs)
  | reach_start trusted err args w :
      reachable pycall w -> reachable pycall (listenerStart trusted err args w).2
  | reach_stop w :
      reachable pycall w -> reachable pycall (listenerStop w).2
  | reach_setEatKeys args w :
      reachable pycall w -> reachable pycall (listenerSetEatKeys args w).2
  | reach_thread tap loop w :
      reachable pycall w -> reachable pycall (eventLoopThread tap loop w)
  | reach_event type event w :
      reachable pycall w -> reachable pycall (eventCallback pycall type event w).2.

(** What holds in every reachable world. *)
Definition listener_inv (w : World) : Prop :=
  registry_wf w
  ∧ (listenerRunning w = 0 ∨ listenerRunning w = 1)
  ∧ (listenerRunning w = 0 → callbackObj w = None)
  ∧ Z.of_nat (threadsCreated w) = Z.of_nat (threadsJoined w) + listenerRunning w.

(** The world a successful [start] with the function object [fid] leaves,
    when no callback was stored before, and the world [stop] leaves when the
    listener was running with callback [cb]. *)
Definition started_world (fid : objid) (w : World) : World :=
  {| eventTap := eventTap w; runLoop := runLoop w;
     eventThread := S (threadsCreated w);
     callbackObj := Some (PyFunction fid); listenerRunning := 1;
     eatKeysMutex := true; eatKeys := eatKeys w; numEatKeys := 0;
     ob_refcnt := <[fid := S (refcnt w fid)]> (ob_refcnt w);
     curexc := curexc w; tapexc := tapexc w; pystderr := pystderr w;
     calls := calls w; threadsCreated := S (threadsCreated w);
     threadsJoined := threadsJoined w; exited := exited w |}.

Definition stopped_world (cb : option PyObject) (w : World) : World :=
  {| eventTap := None; runLoop := None; eventThread := eventThread w;
     callbackObj := None; listenerRunning := 0;
     eatKeysMutex := false; eatKeys := eatKeys w; numEatKeys := numEatKeys w;
     ob_refcnt := ob_refcnt (Py_XDECREF cb w);
     curexc := curexc w; tapexc := tapexc w; pystderr := pystderr w;
     calls := calls w; threadsCreated := threadsCreated w;
     threadsJoined := S (threadsJoined w); exited := exited w |}.

(** ** The run loop *)

(** [CFRunLoopRun] hands the events of the tap to [eventCallback] one at a
    time, in the order of their arrival. [deliver] gives the returned
    [CGEventRef]s, in that order, and the world after the last event. *)
Fixpoint deliver (pycall : World -> PyObject -> PyDict -> CallOutcome)
    (events : list (Z * CGEvent)) (w : World) : list (option CGEvent) * World :=
  match events with
  | [] => ([], w)
  | (type, event) :: rest =>
      let '(returnEvent, w) := eventCallback pycall type event w in
      let '(returned, w) := deliver pycall rest w in
      (returnEvent :: returned, w)
  end.

(** What [eventCallback] returns for a verdict. *)
Definition returned_for (v : Verdict) (event : CGEvent) : option CGEvent :=
  match v with
  | Allow => Some event
  | Suppress => None
  end.

(** The exception [PyLong_AsLong] leaves behind for an integer that does not
    fit a C [long]. *)
Definition long_overflow : PyErr :=
  mkPyErr PyExc_OverflowError "Python int too large to convert to C long".

(** The message of the permission error of [listenerStart]. *)
Definition permission_message : string :=
  "Accessibility permission required. Go to System Preferences > " +:+
  "Security & Privacy > Privacy > Accessibility and add Python/Terminal".

(** The keys of the records, by category. *)
Definition key_fields : gset string :=
  {[ "timestamp"; "eventType"; "keyCode"; "keyboardType";
     "shift"; "control"; "alt"; "command"; "capsLock" ]}.

Definition button_fields : gset string :=
  {[ "timestamp"; "eventType"; "button"; "clickState"; "x"; "y" ]}.

Definition motion_fields : gset string :=
  {[ "timestamp"; "eventType"; "x"; "y" ]}.

(** The keys of the record built for an event type. *)
Definition fields_of (type : Z) : gset string :=
  if is_key_type type then key_fields
  else if is_button_type type then button_fields
  else if is_motion_type type then motion_fields
  else {[ "timestamp" ]}.

(** * Properties *)

(** ** The registry scan *)

Lemma shouldEatKey_loop_bit keys keyCode n i :
  shouldEatKey_loop keys keyCode n i = 0 ∨ shouldEatKey_loop keys keyCode n i = 1.
Proof.
  revert i. induction n as [|n IH]; intros i; simpl; [by left|].
  destruct (keys !! i) as [k|]; [|apply IH].
  destruct (k =? keyCode); [by right|apply IH].
Qed.

Lemma shouldEatKey_loop_found keys keyCode n i :
  shouldEatKey_loop keys keyCode n i = 1 ↔
  ∃ j : nat, (i ≤ j < i + n)%nat ∧ keys !! j = Some keyCode.
Proof.
  revert i. induction n as [|n IH]; intros i; simpl.
  - split; [discriminate|]. intros (j & Hj & _). lia.
  - destruct (keys !! i) as [k|] eqn:Hi.
    + destruct (Z.eqb_spec k keyCode) as [->|Hne].
      * split; [|done]. intros _. exists i. split; [lia|done].
      * rewrite IH. split.
        -- intros (j & Hj & Hk). exists j. split; [lia|done].
        -- intros (j & Hj & Hk). exists j. split; [|done].
           destruct (decide (j = i)) as [->|]; [congruence|lia].
    + rewrite IH. split.
      * intros (j & Hj & Hk). exists j. split; [lia|done].
      * intros (j & Hj & Hk). exists j. split; [|done].
        destruct (decide (j = i)) as [->|]; [congruence|lia].
Qed.

Lemma elem_of_registry (w : World) (k : Z) :
  k ∈ registry w ↔
  ∃ j : nat, (j < Z.to_nat (numEatKeys w))%nat ∧ eatKeys w !! j = Some k.
Proof.
  unfold registry. rewrite list_elem_of_lookup. split.
  - intros (j & Hj). apply lookup_take_Some in Hj as [Hk Hlt]. eauto.
  - intros (j & Hlt & Hk). exists j. by apply lookup_take_Some.
Qed.

Lemma shouldEatKey_registry (keyCode : Z) (w : World) :
  shouldEatKey keyCode w = 1 ↔ keyCode ∈ registry w.
Proof.
  unfold shouldEatKey. rewrite shouldEatKey_loop_found, elem_of_registry.
  split; intros (j & Hj & Hk); exists j; (split; [lia|done]).
Qed.

Lemma shouldEatKey_nonzero (keyCode : Z) (w : World) :
  negb (shouldEatKey keyCode w =? 0) = true ↔ keyCode ∈ registry w.
Proof.
  rewrite <- shouldEatKey_registry. unfold shouldEatKey.
  destruct (shouldEatKey_loop_bit (eatKeys w) keyCode (Z.to_nat (numEatKeys w)) 0)
    as [-> | ->]; simpl; split; (done || discriminate).
Qed.

(** ** The verdict of [eventCallback] *)

Lemma eventCallback_verdict pycall type event w cb :
  callbackObj w = Some cb →
  verdict_of (eventCallback pycall type event w).1 = verdict_before_dispatch type event w.
Proof.
  intros Hcb. unfold eventCallback, verdict_before_dispatch, keyCode_of. rewrite Hcb.
  destruct (PyObject_CallFunctionObjArgs pycall cb (eventDict type event) w) as [result w'].
  simpl. destruct (is_key_type type); [|done].
  simpl. by destruct (negb _).
Qed.

(** C1: while a callback is registered, a key-down or key-up event is
    suppressed exactly when its key code is in the suppression registry, and
    a key event whose code is not in the registry is allowed. *)
Theorem C1_key_event_suppressed_iff_registered
    (pycall : World → PyObject → PyDict → CallOutcome)
    (type : Z) (event : CGEvent) (w : World) (cb : PyObject) :
  callbackObj w = Some cb →
  is_key_type type = true →
  (verdict_of (eventCallback pycall type event w).1 = Suppress
     ↔ keyCode_of event ∈ registry w)
  ∧ (keyCode_of event ∉ registry w →
     verdict_of (eventCallback pycall type event w).1 = Allow).
Proof.
  intros Hcb Hkey. rewrite (eventCallback_verdict _ _ _ _ _ Hcb).
  unfold verdict_before_dispatch. rewrite Hkey. simpl.
  pose proof (shouldEatKey_nonzero (keyCode_of event) w) as Hreg.
  destruct (negb _); split.
  - split; [intros _; by apply Hreg|done].
  - intros Hnot. destruct Hnot. by apply Hreg.
  - split; [discriminate|]. intros Hin. apply Hreg in Hin. discriminate.
  - done.
Qed.

Lemma C1_key_event_suppressed_iff_registered_witness :
  (verdict_of (eventCallback quiet_callback kCGEventKeyDown (key_event 5) running_world).1
     = Suppress ↔ keyCode_of (key_event 5) ∈ registry running_world)
  ∧ (keyCode_of (key_event 5) ∉ registry running_world →
     verdict_of (eventCallback quiet_callback kCGEventKeyDown (key_event 5) running_world).1
       = Allow).
Proof.
  apply (C1_key_event_suppressed_iff_registered quiet_callback kCGEventKeyDown
           (key_event 5) running_world example_callback); reflexivity.
Defined.

(** C10: an event that is neither key-down nor key-up is allowed, whatever
    the registry holds. *)
Theorem C10_non_key_event_allowed
    (pycall : World → PyObject → PyDict → CallOutcome)
    (type : Z) (event : CGEvent) (w : World) :
  type ≠ kCGEventKeyDown →
  type ≠ kCGEventKeyUp →
  (eventCallback pycall type event w).1 = Some event
  ∧ verdict_of (eventCallback pycall type event w).1 = Allow.
Proof.
  intros Hd Hu.
  assert (is_key_type type = false) as Hkey.
  { unfold is_key_type. apply orb_false_iff. split; by apply Z.eqb_neq. }
  unfold eventCallback. destruct (callbackObj w) as [cb|]; [|done].
  destruct (PyObject_CallFunctionObjArgs pycall cb (eventDict type event) w) as [result w'].
  rewrite Hkey. done.
Qed.

Lemma C10_non_key_event_allowed_witness :
  (eventCallback quiet_callback kCGEventLeftMouseDown
     (mouse_event 100.5 200.25 0 1) running_world).1
    = Some (mouse_event 100.5 200.25 0 1)
  ∧ verdict_of (eventCallback quiet_callback kCGEventLeftMouseDown
                  (mouse_event 100.5 200.25 0 1) running_world).1 = Allow.
Proof.
  apply (C10_non_key_event_allowed quiet_callback kCGEventLeftMouseDown
           (mouse_event 100.5 200.25 0 1) running_world); discriminate.
Defined.

(** ** The event mask and the category chains *)

(** The eleven event types named in [eventLoopThread]. *)
Lemma accepted_by_mask_types (type : Z) :
  accepted_by_mask type = true ↔
  type ∈ [kCGEventKeyDown; kCGEventKeyUp;
          kCGEventLeftMouseDown; kCGEventLeftMouseUp;
          kCGEventRightMouseDown; kCGEventRightMouseUp;
          kCGEventOtherMouseDown; kCGEventOtherMouseUp;
          kCGEventMouseMoved; kCGEventLeftMouseDragged;
          kCGEventRightMouseDragged].
Proof.
  unfold accepted_by_mask. split.
  - intros Hbit.
    destruct (Z.lt_ge_cases type 0) as [Hneg|Hpos].
    { rewrite Z.testbit_neg_r in Hbit by done. discriminate. }
    destruct (Z.lt_ge_cases type 27) as [Hlt|Hge].
    + assert (∃ n : nat, type = Z.of_nat n ∧ (n < 27)%nat) as (n & -> & Hn).
      { exists (Z.to_nat type). lia. }
      do 27 (destruct n as [|n]; [vm_compute in Hbit; try discriminate;
                                  vm_compute; set_solver|]).
      lia.
    + rewrite Z.bits_above_log2 in Hbit; [discriminate|done|].
      change (Z.log2 eventMask) with 26. lia.
  - intros Hin. repeat (apply elem_of_cons in Hin as [->|Hin]; [reflexivity|]).
    by apply elem_of_nil in Hin.
Qed.

(** Inside the button branch [typeStr] is never left NULL. *)
Lemma button_typeStr_Some (type : Z) :
  is_button_type type = true → is_Some (button_typeStr type).
Proof.
  unfold is_button_type, button_typeStr. intros H.
  repeat (destruct (type =? _); [by eexists|]). discriminate.
Qed.

(** Inside the motion branch [typeStr] is never left NULL. *)
Lemma motion_typeStr_Some (type : Z) :
  is_motion_type type = true → is_Some (motion_typeStr type).
Proof.
  unfold is_motion_type, motion_typeStr. intros H.
  repeat (destruct (type =? _); [by eexists|]). discriminate.
Qed.

(** ** The record handed to the callback *)

(** [PyBool_FromLong(flags & mask)] for a one-bit mask reads that bit. *)
Lemma flag_bit (flags : Z) (k : Z) :
  0 ≤ k →
  PyBool_FromLong (Z.land flags (2 ^ k)) = PyBool (Z.testbit flags k).
Proof.
  intros Hk. unfold PyBool_FromLong. f_equal.
  destruct (Z.testbit flags k) eqn:Hbit.
  - apply negb_true_iff, Z.eqb_neq. intros Hz.
    assert (Z.testbit (Z.land flags (2 ^ k)) k = true) as Hl.
    { rewrite Z.land_spec, Hbit, Z.pow2_bits_true; done. }
    rewrite Hz, Z.bits_0 in Hl. discriminate.
  - apply negb_false_iff, Z.eqb_eq, Z.bits_inj'. intros n Hn.
    rewrite Z.land_spec, Z.bits_0, Z.pow2_bits_eqb by done.
    destruct (Z.eqb_spec k n) as [->|]; [by rewrite Hbit|apply andb_false_r].
Qed.

Lemma eventDict_timestamp (type : Z) (event : CGEvent) :
  eventDict type event !! "timestamp" = Some (timestamp_of event).
Proof.
  unfold eventDict, set_eventType, PyDict_SetItemString, PyDict_New.
  destruct (is_key_type type); [by simplify_map_eq|].
  destruct (is_button_type type).
  { destruct (button_typeStr type); by simplify_map_eq. }
  destruct (is_motion_type type).
  { destruct (motion_typeStr type); by simplify_map_eq. }
  by simplify_map_eq.
Qed.

Lemma eventDict_key (type : Z) (event : CGEvent) :
  is_key_type type = true →
  eventDict type event =
    key_record (if type =? kCGEventKeyDown then "keydown" else "keyup") event.
Proof.
  intros Hkey. unfold eventDict, key_record, keyCode_of. rewrite Hkey.
  unfold PyDict_SetItemString, PyDict_New, CGEventGetFlags.
  change kCGEventFlagMaskShift with (2 ^ 17).
  change kCGEventFlagMaskControl with (2 ^ 18).
  change kCGEventFlagMaskAlternate with (2 ^ 19).
  change kCGEventFlagMaskCommand with (2 ^ 20).
  change kCGEventFlagMaskAlphaShift with (2 ^ 16).
  rewrite !flag_bit by lia.
  apply map_eq. intros k.
  repeat (rewrite lookup_insert; case_decide; [done|]). done.
Qed.

Lemma eventDict_button (type : Z) (event : CGEvent) (tag : string) :
  is_key_type type = false →
  button_typeStr type = Some tag →
  is_button_type type = true →
  eventDict type event = button_record tag event.
Proof.
  intros Hkey Htag Hbutton. unfold eventDict, button_record.
  rewrite Hkey, Hbutton, Htag.
  unfold set_eventType, PyDict_SetItemString, PyDict_New.
  apply map_eq. intros k.
  repeat (rewrite lookup_insert; case_decide; [done|]). done.
Qed.

Lemma eventDict_motion (type : Z) (event : CGEvent) (tag : string) :
  is_key_type type = false →
  is_button_type type = false →
  motion_typeStr type = Some tag →
  is_motion_type type = true →
  eventDict type event = motion_record tag event.
Proof.
  intros Hkey Hbutton Htag Hmotion. unfold eventDict, motion_record.
  rewrite Hkey, Hbutton, Hmotion, Htag.
  unfold set_eventType, PyDict_SetItemString, PyDict_New.
  apply map_eq. intros k.
  repeat (rewrite lookup_insert; case_decide; [done|]). done.
Qed.

Lemma eventDict_unhandled (type : Z) (event : CGEvent) :
  is_key_type type = false →
  is_button_type type = false →
  is_motion_type type = false →
  eventDict type event = minimal_record event.
Proof.
  intros Hkey Hbutton Hmotion. unfold eventDict.
  by rewrite Hkey, Hbutton, Hmotion.
Qed.

(** The tag stored under ["eventType"] is the one the data model gives for
    the event type. *)
Lemma eventDict_eventType (type : Z) (event : CGEvent) :
  accepted_by_mask type = true →
  ∃ tag, category_tag type = Some tag
         ∧ eventDict type event !! "eventType" = Some (PyUnicode tag).
Proof.
  rewrite accepted_by_mask_types. intros Hin.
  repeat (apply elem_of_cons in Hin as [->|Hin]; [eexists; split; reflexivity|]).
  by apply elem_of_nil in Hin.
Qed.

(** Exactly one call is made, to the registered callback, with [eventDict]. *)
Lemma eventCallback_calls pycall type event w cb :
  callbackObj w = Some cb →
  calls (eventCallback pycall type event w).2 = calls w ++ [(cb, eventDict type event)].
Proof.
  intros Hcb. unfold eventCallback, PyObject_CallFunctionObjArgs. rewrite Hcb.
  destruct (pycall w cb (eventDict type event)) as [result|e]; simpl.
  - by destruct result.
  - unfold PyErr_Print. simpl. by destruct (exc_type e).
Qed.

(** The record of an accepted event, by category. *)
Lemma eventDict_accepted (type : Z) (event : CGEvent) :
  accepted_by_mask type = true →
  ∃ tag, category_tag type = Some tag
    ∧ ((is_key_type type = true ∧ eventDict type event = key_record tag event)
       ∨ (is_button_type type = true ∧ eventDict type event = button_record tag event)
       ∨ (is_motion_type type = true ∧ eventDict type event = motion_record tag event)).
Proof.
  rewrite accepted_by_mask_types. intros Hin.
  apply elem_of_cons in Hin as [->|Hin].
  { eexists. split; [reflexivity|]. left. split; [done|]. by apply eventDict_key. }
  apply elem_of_cons in Hin as [->|Hin].
  { eexists. split; [reflexivity|]. left. split; [done|]. by apply eventDict_key. }
  do 6 (apply elem_of_cons in Hin as [->|Hin];
        [eexists; split; [reflexivity|]; right; left; split; [done|];
         by apply eventDict_button|]).
  do 3 (apply elem_of_cons in Hin as [->|Hin];
        [eexists; split; [reflexivity|]; right; right; split; [done|];
         by apply eventDict_motion|]).
  by apply elem_of_nil in Hin.
Qed.

Lemma keyCode_of_in_range (event : CGEvent) :
  0 ≤ ev_keycode event < 2 ^ 16 → keyCode_of event = ev_keycode event.
Proof. intros H. unfold keyCode_of, CGKeyCode_of. simpl. by apply Z.mod_small. Qed.

(** C3: every event the hook mask accepts leads to exactly one call of the
    registered callback, whatever the verdict, and the record passed carries
    the tag of the event's type and the raw values of the event in the
    fields of its category. *)
Theorem C3_accepted_event_dispatched_once_with_record
    (pycall : World → PyObject → PyDict → CallOutcome)
    (type : Z) (event : CGEvent) (w : World) (cb : PyObject) :
  accepted_by_mask type = true →
  callbackObj w = Some cb →
  ∃ (tag : string) (record : PyDict),
    calls (eventCallback pycall type event w).2 = calls w ++ [(cb, record)]
    ∧ category_tag type = Some tag
    ∧ ((is_key_type type = true ∧ record = key_record tag event)
       ∨ (is_button_type type = true ∧ record = button_record tag event)
       ∨ (is_motion_type type = true ∧ record = motion_record tag event))
    ∧ (0 ≤ ev_keycode event < 2 ^ 16 → keyCode_of event = ev_keycode event).
Proof.
  intros Hmask Hcb.
  destruct (eventDict_accepted type event Hmask) as (tag & Htag & Hrec).
  exists tag, (eventDict type event).
  split; [by apply eventCallback_calls|].
  split; [done|]. split; [done|]. apply keyCode_of_in_range.
Qed.

Lemma C3_accepted_event_dispatched_once_with_record_witness :
  ∃ (tag : string) (record : PyDict),
    calls (eventCallback quiet_callback kCGEventLeftMouseDown
             (mouse_event 100.5 200.25 0 1) running_world).2
      = calls running_world ++ [(example_callback, record)]
    ∧ category_tag kCGEventLeftMouseDown = Some tag
    ∧ ((is_key_type kCGEventLeftMouseDown = true
        ∧ record = key_record tag (mouse_event 100.5 200.25 0 1))
       ∨ (is_button_type kCGEventLeftMouseDown = true
          ∧ record = button_record tag (mouse_event 100.5 200.25 0 1))
       ∨ (is_motion_type kCGEventLeftMouseDown = true
          ∧ record = motion_record tag (mouse_event 100.5 200.25 0 1)))
    ∧ (0 ≤ ev_keycode (mouse_event 100.5 200.25 0 1) < 2 ^ 16 →
       keyCode_of (mouse_event 100.5 200.25 0 1)
         = ev_keycode (mouse_event 100.5 200.25 0 1)).
Proof.
  apply (C3_accepted_event_dispatched_once_with_record quiet_callback
           kCGEventLeftMouseDown (mouse_event 100.5 200.25 0 1) running_world
           example_callback); reflexivity.
Defined.

(** The design's example: a left-mouse-down at (100.5, 200.25). *)
Example left_mouse_down_record :
  calls (eventCallback quiet_callback kCGEventLeftMouseDown
           (mouse_event 100.5 200.25 0 1) running_world).2
  = [ (example_callback,
       {[ "timestamp" := PyFloat 2;
          "eventType" := PyUnicode "leftMouseDown";
          "button" := PyLong 0;
          "clickState" := PyLong 1;
          "x" := PyFloat 100.5;
          "y" := PyFloat 200.25 ]}) ].
Proof.
  rewrite (eventCallback_calls _ _ _ _ example_callback) by reflexivity.
  rewrite (eventDict_button _ _ "leftMouseDown") by reflexivity.
  reflexivity.
Qed.

(** C9: building the record never fails. The timestamp entry is always
    made, an accepted type always gets its tag (the [typeStr] of its branch
    is never NULL), and a type that is neither key, button nor motion gives
    the record with the timestamp alone, which is what the callback then
    receives. *)
Theorem C9_translation_total (type : Z) (event : CGEvent) :
  eventDict type event !! "timestamp" = Some (timestamp_of event)
  ∧ (accepted_by_mask type = true →
     ∃ tag, category_tag type = Some tag
            ∧ eventDict type event !! "eventType" = Some (PyUnicode tag))
  ∧ (is_key_type type = false →
     is_button_type type = false →
     is_motion_type type = false →
     eventDict type event = minimal_record event
     ∧ ∀ pycall w cb,
         callbackObj w = Some cb →
         calls (eventCallback pycall type event w).2
           = calls w ++ [(cb, minimal_record event)]).
Proof.
  split; [apply eventDict_timestamp|].
  split; [apply eventDict_eventType|].
  intros Hkey Hbutton Hmotion.
  pose proof (eventDict_unhandled type event Hkey Hbutton Hmotion) as Hmin.
  split; [done|]. intros pycall w cb Hcb.
  rewrite <- Hmin. by apply eventCallback_calls.
Qed.

Lemma C9_translation_total_witness :
  eventDict kCGEventScrollWheel (key_event 5) = minimal_record (key_event 5)
  ∧ ∀ pycall w cb,
      callbackObj w = Some cb →
      calls (eventCallback pycall kCGEventScrollWheel (key_event 5) w).2
        = calls w ++ [(cb, minimal_record (key_event 5))].
Proof.
  apply (C9_translation_total kCGEventScrollWheel (key_event 5)); reflexivity.
Defined.

(** ** A callback that raises *)






(** A suppressed key stays suppressed when the callback raises. *)
Example fault_on_suppressed_key :
  (eventCallback faulty_callback kCGEventKeyDown (key_event 5) running_world).1 = None.
Proof. reflexivity. Qed.

(** ** [listenerStart] *)

(** C7: [start] with a callable while the listener is running fails with
    "Listener already running"; no thread is created and nothing but the
    error indicator of the calling thread changes, so the running flag, the
    stored callback and the registry are as before. *)
Theorem C7_start_while_running_rejected
    (trusted : bool) (err : Z) (callback : PyObject) (w : World) :
  PyCallable_Check callback = true →
  listenerRunning w ≠ 0 →
  AlreadyRunning (listenerStart trusted err [callback] w)
  ∧ (listenerStart trusted err [callback] w).2
      = PyErr_SetString PyExc_RuntimeError "Listener already running" w
  ∧ threadsCreated (listenerStart trusted err [callback] w).2 = threadsCreated w
  ∧ listenerRunning (listenerStart trusted err [callback] w).2 = listenerRunning w
  ∧ callbackObj (listenerStart trusted err [callback] w).2 = callbackObj w
  ∧ eatKeys (listenerStart trusted err [callback] w).2 = eatKeys w
  ∧ numEatKeys (listenerStart trusted err [callback] w).2 = numEatKeys w
  ∧ registry (listenerStart trusted err [callback] w).2 = registry w
  ∧ ob_refcnt (listenerStart trusted err [callback] w).2 = ob_refcnt w.
Proof.
  intros Hcallable Hrunning. apply Z.eqb_neq in Hrunning.
  unfold AlreadyRunning, fails_with, listenerStart. simpl.
  rewrite Hcallable, Hrunning. simpl. repeat split.
Qed.

Lemma C7_start_while_running_rejected_witness :
  AlreadyRunning (listenerStart true 0 [PyFunction 2%positive] running_world)
  ∧ (listenerStart true 0 [PyFunction 2%positive] running_world).2
      = PyErr_SetString PyExc_RuntimeError "Listener already running" running_world
  ∧ threadsCreated (listenerStart true 0 [PyFunction 2%positive] running_world).2
      = threadsCreated running_world
  ∧ listenerRunning (listenerStart true 0 [PyFunction 2%positive] running_world).2
      = listenerRunning running_world
  ∧ callbackObj (listenerStart true 0 [PyFunction 2%positive] running_world).2
      = callbackObj running_world
  ∧ eatKeys (listenerStart true 0 [PyFunction 2%positive] running_world).2
      = eatKeys running_world
  ∧ numEatKeys (listenerStart true 0 [PyFunction 2%positive] running_world).2
      = numEatKeys running_world
  ∧ registry (listenerStart true 0 [PyFunction 2%positive] running_world).2
      = registry running_world
  ∧ ob_refcnt (listenerStart true 0 [PyFunction 2%positive] running_world).2
      = ob_refcnt running_world.
Proof.
  apply (C7_start_while_running_rejected true 0 (PyFunction 2%positive) running_world);
    [reflexivity|discriminate].
Defined.

(** The claim of C8 fails on the registry: with 5 in the registry of the
    stopped listener, a [start] whose thread cannot be created releases the
    callback and leaves the listener stopped, but the registry it had reset
    before is not put back: it is empty afterwards. *)
Lemma C8_counterexample_registry_not_restored :
  listenerRunning stopped_with_keys = 0
  ∧ registry stopped_with_keys = [5]
  ∧ ThreadSpawnFailed (listenerStart true 35 [example_callback] stopped_with_keys)
  ∧ callbackObj (listenerStart true 35 [example_callback] stopped_with_keys).2 = None
  ∧ listenerRunning (listenerStart true 35 [example_callback] stopped_with_keys).2 = 0
  ∧ registry (listenerStart true 35 [example_callback] stopped_with_keys).2 = []
  ∧ registry (listenerStart true 35 [example_callback] stopped_with_keys).2
    ≠ registry stopped_with_keys.
Proof. repeat split; try reflexivity. discriminate. Qed.

(** C8 (amended): when the thread cannot be created, [start] fails with
    "Failed to create thread", no callback stays registered, the listener
    stays stopped, no capture thread exists, the mutex is destroyed again
    and the callback's reference count is what it was before the call. The
    registry is not restored: [start] has set the count to 0 before it
    tried to create the thread, and the registry stays empty (the cells of
    the array are as before). *)
Theorem C8_spawn_failure_releases_callback_registry_emptied
    (err : Z) (callback : PyObject) (w : World) :
  PyCallable_Check callback = true →
  listenerRunning w = 0 →
  callbackObj w = None →
  err ≠ 0 →
  ThreadSpawnFailed (listenerStart true err [callback] w)
  ∧ callbackObj (listenerStart true err [callback] w).2 = None
  ∧ listenerRunning (listenerStart true err [callback] w).2 = 0
  ∧ listenerIsRunning (listenerStart true err [callback] w).2 = PyBool false
  ∧ threadsCreated (listenerStart true err [callback] w).2 = threadsCreated w
  ∧ eatKeysMutex (listenerStart true err [callback] w).2 = false
  ∧ (∀ id, refcnt (listenerStart true err [callback] w).2 id = refcnt w id)
  ∧ numEatKeys (listenerStart true err [callback] w).2 = 0
  ∧ registry (listenerStart true err [callback] w).2 = []
  ∧ eatKeys (listenerStart true err [callback] w).2 = eatKeys w.
Proof.
  intros Hcallable Hstopped Hnone Herr. apply Z.eqb_neq in Herr.
  destruct callback as [| | | | | |fid]; try discriminate.
  unfold ThreadSpawnFailed, fails_with, listenerStart, listenerIsRunning,
    pthread_create, registry.
  simpl. rewrite Hstopped, Hnone, Herr. simpl.
  repeat split; try done.
  - by rewrite Hstopped.
  - intros id. unfold refcnt. simpl. unfold refcnt. simpl.
    destruct (decide (fid = id)) as [->|Hne].
    + by rewrite !lookup_insert_eq.
    + by rewrite !lookup_insert_ne.
Qed.

Lemma C8_spawn_failure_releases_callback_registry_emptied_witness :
  ThreadSpawnFailed (listenerStart true 35 [example_callback] stopped_with_keys)
  ∧ callbackObj (listenerStart true 35 [example_callback] stopped_with_keys).2 = None
  ∧ listenerRunning (listenerStart true 35 [example_callback] stopped_with_keys).2 = 0
  ∧ listenerIsRunning (listenerStart true 35 [example_callback] stopped_with_keys).2
      = PyBool false
  ∧ threadsCreated (listenerStart true 35 [example_callback] stopped_with_keys).2
      = threadsCreated stopped_with_keys
  ∧ eatKeysMutex (listenerStart true 35 [example_callback] stopped_with_keys).2 = false
  ∧ (∀ id, refcnt (listenerStart true 35 [example_callback] stopped_with_keys).2 id
           = refcnt stopped_with_keys id)
  ∧ numEatKeys (listenerStart true 35 [example_callback] stopped_with_keys).2 = 0
  ∧ registry (listenerStart true 35 [example_callback] stopped_with_keys).2 = []
  ∧ eatKeys (listenerStart true 35 [example_callback] stopped_with_keys).2
      = eatKeys stopped_with_keys.
Proof.
  apply (C8_spawn_failure_releases_callback_registry_emptied 35 example_callback
           stopped_with_keys);
    [reflexivity|reflexivity|reflexivity|discriminate].
Defined.

(** ** [listenerSetEatKeys] *)

Lemma PyLong_AsLong_value (item : PyObject) (w : World) :
  int_of_long (PyLong_AsLong item w).1 = eaten_key item.
Proof.
  unfold eaten_key. destruct item as [| |z| | | |]; try done.
  simpl. by destruct (_ && _).
Qed.

Lemma PyLong_AsLong_world (item : PyObject) (w : World) :
  eatKeys (PyLong_AsLong item w).2 = eatKeys w
  ∧ numEatKeys (PyLong_AsLong item w).2 = numEatKeys w
  ∧ same_outside_registry w (PyLong_AsLong item w).2.
Proof.
  destruct item as [| |z| | | |]; simpl; try (repeat split; done).
  destruct (_ && _); repeat split; done.
Qed.

Lemma eaten_key_fits (item : PyObject) :
  fits_long item = true → eaten_key item = int_of_long (int_value item).
Proof.
  unfold eaten_key. destruct item as [| |z| | | |]; try done.
  simpl. by intros ->.
Qed.

Lemma same_outside_registry_trans (w1 w2 w3 : World) :
  same_outside_registry w1 w2 → same_outside_registry w2 w3 →
  same_outside_registry w1 w3.
Proof. unfold same_outside_registry. intuition congruence. Qed.

Lemma int_prefix_all (items : list PyObject) :
  forallb PyLong_Check items = true → int_prefix items = items.
Proof.
  induction items as [|item rest IH]; [done|]. simpl.
  destruct (PyLong_Check item); [|done]. simpl. intros H. by rewrite IH.
Qed.

Lemma forallb_PyLong_Check_false (items : list PyObject) :
  forallb PyLong_Check items = false ↔
  ∃ item, item ∈ items ∧ PyLong_Check item = false.
Proof.
  induction items as [|item rest IH]; simpl.
  - split; [discriminate|]. intros (item & Hin & _). by apply elem_of_nil in Hin.
  - destruct (PyLong_Check item) eqn:Hitem; simpl.
    + rewrite IH. split.
      * intros (o & Hin & Ho). exists o. split; [by right|done].
      * intros (o & Hin & Ho). apply elem_of_cons in Hin as [->|Hin]; [congruence|eauto].
    + split; [|done]. intros _. exists item. split; [by left|done].
Qed.

(** The loop appends the cells of the leading integer items to the registry
    and stops with a [TypeError] at the first item that is not an integer. *)
Lemma listenerSetEatKeys_loop_spec (items : list PyObject) (w : World) :
  0 ≤ numEatKeys w →
  (Z.to_nat (numEatKeys w) + length items ≤ length (eatKeys w))%nat →
  registry (listenerSetEatKeys_loop items w).2
    = registry w ++ map eaten_key (int_prefix items)
  ∧ length (eatKeys (listenerSetEatKeys_loop items w).2) = length (eatKeys w)
  ∧ numEatKeys (listenerSetEatKeys_loop items w).2
    = numEatKeys w + Z.of_nat (length (int_prefix items))
  ∧ same_outside_registry w (listenerSetEatKeys_loop items w).2
  ∧ (if forallb PyLong_Check items
     then (listenerSetEatKeys_loop items w).1 = Some PyNone
     else InvalidEntry (listenerSetEatKeys_loop items w)).
Proof.
  revert w. induction items as [|item rest IH]; intros w Hpos Hroom.
  - simpl. rewrite app_nil_r, Z.add_0_r. repeat split; done.
  - simpl in Hroom. simpl. destruct (PyLong_Check item) eqn:Hitem; simpl.
    + destruct (PyLong_AsLong item w) as [v w1] eqn:Hlong.
      pose proof (PyLong_AsLong_value item w) as Hv.
      pose proof (PyLong_AsLong_world item w) as (Hkeys & Hnum & Hsame).
      rewrite Hlong in Hv, Hkeys, Hnum, Hsame. simpl in Hv, Hkeys, Hnum, Hsame.
      set (w2 := set_eatKeys _ _).
      assert (numEatKeys w2 = numEatKeys w + 1) as Hnum2 by (simpl; lia).
      assert (length (eatKeys w2) = length (eatKeys w)) as Hlen2.
      { simpl. by rewrite length_insert, Hkeys. }
      assert (registry w2 = registry w ++ [eaten_key item]) as Hreg2.
      { unfold registry. rewrite Hnum2. simpl. rewrite Hnum, Hkeys, Hv.
        replace (Z.to_nat (numEatKeys w + 1)) with (S (Z.to_nat (numEatKeys w))) by lia.
        rewrite (take_S_r _ _ (eaten_key item)).
        - by rewrite take_insert_ge.
        - apply list_lookup_insert_eq. lia. }
      assert (same_outside_registry w w2) as Hsame2.
      { unfold same_outside_registry in *. simpl. done. }
      destruct (IH w2) as (Hreg & Hlen & Hcount & Hframe & Hres); [lia|lia|].
      rewrite Hreg, Hreg2, Hlen, Hlen2, Hcount, Hnum2, <- app_assoc. simpl.
      split; [done|]. split; [done|]. split; [lia|].
      split; [by eapply same_outside_registry_trans|].
      destruct (forallb PyLong_Check rest); [done|].
      unfold InvalidEntry, fails_with in *. done.
    + rewrite app_nil_r, Z.add_0_r. repeat split; done.
Qed.

(** An over-long list is rejected before anything is written. *)
Lemma listenerSetEatKeys_too_many (items : list PyObject) (w : World) :
  MAX_EAT_KEYS < Z.of_nat (length items) →
  listenerSetEatKeys [PyList items] w
  = (None, PyErr_SetString PyExc_ValueError "Too many keys to eat (max 1024)" w).
Proof.
  intros Hlong. apply Z.ltb_lt in Hlong.
  unfold listenerSetEatKeys. simpl. by rewrite Hlong.
Qed.

(** A list within the capacity replaces the registry by the cells of its
    leading integer items. *)
Lemma listenerSetEatKeys_within (items : list PyObject) (w : World) :
  length (eatKeys w) = Z.to_nat MAX_EAT_KEYS →
  Z.of_nat (length items) ≤ MAX_EAT_KEYS →
  registry (listenerSetEatKeys [PyList items] w).2 = map eaten_key (int_prefix items)
  ∧ registry_wf (listenerSetEatKeys [PyList items] w).2
  ∧ same_outside_registry w (listenerSetEatKeys [PyList items] w).2
  ∧ (if forallb PyLong_Check items
     then (listenerSetEatKeys [PyList items] w).1 = Some PyNone
     else InvalidEntry (listenerSetEatKeys [PyList items] w)).
Proof.
  intros Hlen Hfit. unfold listenerSetEatKeys. simpl.
  destruct (Z.ltb_spec MAX_EAT_KEYS (Z.of_nat (length items))) as [?|_]; [lia|].
  destruct (listenerSetEatKeys_loop_spec items (set_numEatKeys 0 w))
    as (Hreg & Hlen' & Hcount & Hframe & Hres); [done|simpl; lia|].
  split; [by rewrite Hreg|]. split; [|split; [|done]].
  - unfold registry_wf. rewrite Hlen', Hcount. simpl.
    split; [done|]. split; [lia|].
    assert (length (int_prefix items) ≤ length items)%nat; [|lia].
    clear. induction items as [|item rest IH]; simpl; [lia|].
    destruct (PyLong_Check item); simpl; lia.
  - unfold same_outside_registry in *. simpl in Hframe. done.
Qed.

(** C6 (amended): with a list argument, [setEatKeys] fails with "Too many
    keys" exactly when the list has more than 1024 items (1024 items are
    accepted); a list within the capacity fails with "All items must be
    integers" exactly when some item is not an integer; and an accepted list
    of integers that fit a C long is stored as it is, every value cut to the
    32 bits of an [int], with no check against the range of a key code. *)
Theorem C6_setEatKeys_errors_and_unchecked_entries
    (items : list PyObject) (w : World) :
  length (eatKeys w) = Z.to_nat MAX_EAT_KEYS →
  (TooMany (listenerSetEatKeys [PyList items] w) ↔ 1024 < Z.of_nat (length items))
  ∧ (Z.of_nat (length items) ≤ 1024 →
     (InvalidEntry (listenerSetEatKeys [PyList items] w)
        ↔ ∃ item, item ∈ items ∧ PyLong_Check item = false))
  ∧ (Z.of_nat (length items) ≤ 1024 →
     forallb fits_long items = true →
     (listenerSetEatKeys [PyList items] w).1 = Some PyNone
     ∧ registry (listenerSetEatKeys [PyList items] w).2
       = map (λ item, int_of_long (int_value item)) items).
Proof.
  intros Hlen. split; [|split].
  - split.
    + intros [Hnull Hexc].
      destruct (Z.lt_ge_cases 1024 (Z.of_nat (length items))) as [|Hfit]; [done|].
      destruct (listenerSetEatKeys_within items w Hlen) as (_ & _ & _ & Hres); [done|].
      destruct (forallb PyLong_Check items); [congruence|].
      destruct Hres as [_ Hexc']. congruence.
    + intros Hlong. rewrite listenerSetEatKeys_too_many by done. by split.
  - intros Hfit.
    destruct (listenerSetEatKeys_within items w Hlen) as (_ & _ & _ & Hres); [done|].
    rewrite <- forallb_PyLong_Check_false.
    destruct (forallb PyLong_Check items); [|done].
    split; [|discriminate]. intros [Hnull _]. congruence.
  - intros Hfit Hlongs.
    assert (forallb PyLong_Check items = true) as Hints.
    { rewrite forallb_forall in Hlongs. apply forallb_forall. intros item Hin.
      specialize (Hlongs item Hin). by destruct item. }
    destruct (listenerSetEatKeys_within items w Hlen) as (Hreg & _ & _ & Hres); [done|].
    rewrite Hints in Hres. split; [done|].
    rewrite Hreg, int_prefix_all by done.
    apply map_ext_in. intros item Hin. apply eaten_key_fits.
    rewrite forallb_forall in Hlongs. by apply Hlongs.
Qed.

Lemma C6_setEatKeys_errors_and_unchecked_entries_witness :
  (TooMany (listenerSetEatKeys [PyList (replicate 1024 (PyLong 7))] example_world)
     ↔ 1024 < Z.of_nat (length (replicate 1024 (PyLong 7))))
  ∧ (InvalidEntry (listenerSetEatKeys [PyList (replicate 1024 (PyLong 7))] example_world)
       ↔ ∃ item, item ∈ replicate 1024 (PyLong 7) ∧ PyLong_Check item = false)
  ∧ (listenerSetEatKeys [PyList (replicate 1024 (PyLong 7))] example_world).1
      = Some PyNone
  ∧ registry (listenerSetEatKeys [PyList (replicate 1024 (PyLong 7))] example_world).2
      = map (λ item, int_of_long (int_value item)) (replicate 1024 (PyLong 7)).
Proof.
  destruct (C6_setEatKeys_errors_and_unchecked_entries (replicate 1024 (PyLong 7))
              example_world) as (Hmany & Hinvalid & Hstored); [reflexivity|].
  split; [exact Hmany|]. split.
  - apply Hinvalid. vm_compute. discriminate.
  - apply Hstored; [vm_compute; discriminate|reflexivity].
Defined.

(** The claim of C6 fails on its last part: 4294967301 (2^32 + 5) is not
    representable as a key code, nor as an [int], yet the call succeeds and
    the registry then holds 5. So does 70000, stored as it is. *)
Lemma C6_counterexample_entry_not_validated :
  (listenerSetEatKeys [PyList [PyLong 4294967301; PyLong 70000]] example_world).1
    = Some PyNone
  ∧ curexc (listenerSetEatKeys [PyList [PyLong 4294967301; PyLong 70000]] example_world).2
    = None
  ∧ registry (listenerSetEatKeys [PyList [PyLong 4294967301; PyLong 70000]] example_world).2
    = [5; 70000]
  ∧ ¬ representable_as_CGKeyCode 4294967301
  ∧ ¬ representable_as_int 4294967301
  ∧ ¬ representable_as_CGKeyCode 70000.
Proof.
  split; [reflexivity|]. split; [reflexivity|]. split; [reflexivity|].
  unfold representable_as_CGKeyCode, representable_as_int. lia.
Qed.

(** C2: the failing input. With 5 and 12 in the registry, the call
    [setEatKeys([7, "a"])] is rejected with "All items must be integers",
    but the registry is not what it was: the loop had already reset the
    count and stored 7 when it met the string. *)
Theorem C2_invalid_entry_leaves_partial_update :
  registry running_world = [5; 12]
  ∧ InvalidEntry (listenerSetEatKeys [PyList [PyLong 7; PyUnicode "a"]] running_world)
  ∧ registry (listenerSetEatKeys [PyList [PyLong 7; PyUnicode "a"]] running_world).2 = [7]
  ∧ verdict_of (eventCallback quiet_callback kCGEventKeyDown (key_event 5)
                  (listenerSetEatKeys [PyList [PyLong 7; PyUnicode "a"]] running_world).2).1
    = Allow
  ∧ verdict_of (eventCallback quiet_callback kCGEventKeyDown (key_event 7)
                  (listenerSetEatKeys [PyList [PyLong 7; PyUnicode "a"]] running_world).2).1
    = Suppress.
Proof. repeat split. Qed.

(** The other rejection, of an over-long list, does leave the registry as
    it was. *)
Lemma too_many_leaves_registry (items : list PyObject) (w : World) :
  MAX_EAT_KEYS < Z.of_nat (length items) →
  TooMany (listenerSetEatKeys [PyList items] w)
  ∧ registry (listenerSetEatKeys [PyList items] w).2 = registry w
  ∧ eatKeys (listenerSetEatKeys [PyList items] w).2 = eatKeys w
  ∧ numEatKeys (listenerSetEatKeys [PyList items] w).2 = numEatKeys w.
Proof.
  intros Hlong. rewrite listenerSetEatKeys_too_many by done. repeat split.
Qed.

(** A rejected list within the capacity keeps exactly the cells of the
    integers in front of the first item that is not one. *)
Lemma invalid_entry_registry (items : list PyObject) (w : World) :
  length (eatKeys w) = Z.to_nat MAX_EAT_KEYS →
  InvalidEntry (listenerSetEatKeys [PyList items] w) →
  registry (listenerSetEatKeys [PyList items] w).2 = map eaten_key (int_prefix items).
Proof.
  intros Hlen [Hnull Hexc].
  destruct (Z.lt_ge_cases MAX_EAT_KEYS (Z.of_nat (length items))) as [Hlong|Hfit].
  - rewrite listenerSetEatKeys_too_many in Hexc by done. discriminate.
  - by destruct (listenerSetEatKeys_within items w Hlen) as (Hreg & _); [lia|].
Qed.

(** ** Keys set before [start] *)

Lemma listenerStart_success trusted err args w :
  (listenerStart trusted err args w).1 ≠ None →
  numEatKeys (listenerStart trusted err args w).2 = 0
  ∧ listenerRunning (listenerStart trusted err args w).2 = 1
  ∧ listenerRunning w = 0
  ∧ threadsCreated (listenerStart trusted err args w).2 = S (threadsCreated w)
  ∧ ∃ callback, args = [callback] ∧ PyCallable_Check callback = true
      ∧ callbackObj (listenerStart trusted err args w).2 = Some callback.
Proof.
  unfold listenerStart, PyArg_ParseTuple_O.
  destruct args as [|callback [|? ?]]; try done.
  destruct callback as [| | | | | |fid]; try done. simpl.
  destruct (Z.eqb_spec (listenerRunning w) 0) as [Hrun|]; [|done]. simpl.
  destruct trusted; [|done]. simpl. unfold pthread_create.
  destruct (err =? 0); [|done]. simpl.
  intros _.
  destruct (callbackObj w) as [[| | | | | |old]|]; simpl;
    (repeat split; try done; eexists; split; [reflexivity|]; by split).
Qed.

Lemma listenerSetEatKeys_any_state (args : list PyObject) (v : Z) (w : World) :
  (listenerSetEatKeys args (set_listenerRunning v w)).1 = (listenerSetEatKeys args w).1
  ∧ eatKeys (listenerSetEatKeys args (set_listenerRunning v w)).2
    = eatKeys (listenerSetEatKeys args w).2
  ∧ numEatKeys (listenerSetEatKeys args (set_listenerRunning v w)).2
    = numEatKeys (listenerSetEatKeys args w).2.
Proof.
  unfold listenerSetEatKeys, PyArg_ParseTuple_O.
  destruct args as [|keyList [|? ?]]; try done.
  destruct keyList as [| | | | |items|]; try done.
  destruct (MAX_EAT_KEYS <? _); [done|].
  change (set_numEatKeys 0 (set_listenerRunning v w))
    with (set_listenerRunning v (set_numEatKeys 0 w)).
  generalize (set_numEatKeys 0 w). clear w.
  induction items as [|item rest IH]; intros w; [done|]. simpl.
  destruct item as [|b|z| | | |]; try done; simpl.
  - exact (IH (set_eatKeys
                 (<[Z.to_nat (numEatKeys w) := int_of_long (if b then 1 else 0)]>
                    (eatKeys w))
                 (set_numEatKeys (numEatKeys w + 1) w))).
  - destruct (_ && _); simpl.
    + exact (IH (set_eatKeys
                   (<[Z.to_nat (numEatKeys w) := int_of_long z]> (eatKeys w))
                   (set_numEatKeys (numEatKeys w + 1) w))).
    + exact (IH (set_eatKeys
                   (<[Z.to_nat (numEatKeys w) := int_of_long (-1)]> (eatKeys w))
                   (set_numEatKeys (numEatKeys w + 1)
                      (PyErr_SetString PyExc_OverflowError
                         "Python int too large to convert to C long" w)))).
Qed.

(** With an empty registry every event is allowed. *)
Lemma empty_registry_allows pycall type event w :
  numEatKeys w = 0 →
  verdict_of (eventCallback pycall type event w).1 = Allow.
Proof.
  intros Hzero. unfold eventCallback.
  destruct (callbackObj w) as [cb|]; [|done].
  destruct (PyObject_CallFunctionObjArgs pycall cb (eventDict type event) w) as [result w'].
  unfold shouldEatKey. rewrite Hzero. simpl. by destruct (is_key_type type).
Qed.

(** The claim of C5 fails: in the stopped example world [setEatKeys([5])]
    succeeds and puts 5 in the registry, the following [start] succeeds,
    and then the registry is empty and a key-down with code 5 is allowed. *)
Lemma C5_counterexample_keys_before_start_dropped :
  listenerRunning example_world = 0
  ∧ (listenerSetEatKeys [PyList [PyLong 5]] example_world).1 = Some PyNone
  ∧ registry stopped_with_keys = [5]
  ∧ (listenerStart true 0 [example_callback] stopped_with_keys).1 = Some PyNone
  ∧ listenerRunning started_after_keys = 1
  ∧ registry started_after_keys = []
  ∧ registry started_after_keys ≠ registry stopped_with_keys
  ∧ keyCode_of (key_event 5) ∈ registry stopped_with_keys
  ∧ verdict_of (eventCallback quiet_callback kCGEventKeyDown (key_event 5)
                  started_after_keys).1 = Allow.
Proof.
  repeat split; try reflexivity.
  - discriminate.
  - vm_compute. apply list_elem_of_here.
Qed.

(** C5 (amended): [setEatKeys] does the same in either lifecycle state, but
    a successful [start] empties the registry: keys set while the listener
    was stopped are gone after the [start] that follows, and every event is
    allowed until [setEatKeys] is called again. *)
Theorem C5_start_empties_registry
    (trusted : bool) (err : Z) (keys_args start_args : list PyObject) (w : World) :
  (listenerStart trusted err start_args (listenerSetEatKeys keys_args w).2).1 ≠ None →
  (∀ v, (listenerSetEatKeys keys_args (set_listenerRunning v w)).1
          = (listenerSetEatKeys keys_args w).1
        ∧ registry (listenerSetEatKeys keys_args (set_listenerRunning v w)).2
          = registry (listenerSetEatKeys keys_args w).2)
  ∧ listenerRunning
      (listenerStart trusted err start_args (listenerSetEatKeys keys_args w).2).2 = 1
  ∧ registry
      (listenerStart trusted err start_args (listenerSetEatKeys keys_args w).2).2 = []
  ∧ (∀ pycall type event,
       verdict_of
         (eventCallback pycall type event
            (listenerStart trusted err start_args (listenerSetEatKeys keys_args w).2).2).1
       = Allow).
Proof.
  intros Hok.
  destruct (listenerStart_success _ _ _ _ Hok) as (Hzero & Hrun & _).
  split; [|split; [done|split]].
  - intros v.
    destruct (listenerSetEatKeys_any_state keys_args v w) as (Hres & Hkeys & Hnum).
    split; [done|]. unfold registry. by rewrite Hkeys, Hnum.
  - unfold registry. by rewrite Hzero.
  - intros pycall type event. by apply empty_registry_allows.
Qed.

Lemma C5_start_empties_registry_witness :
  (∀ v, (listenerSetEatKeys [PyList [PyLong 5]] (set_listenerRunning v example_world)).1
          = (listenerSetEatKeys [PyList [PyLong 5]] example_world).1
        ∧ registry (listenerSetEatKeys [PyList [PyLong 5]]
                      (set_listenerRunning v example_world)).2
          = registry (listenerSetEatKeys [PyList [PyLong 5]] example_world).2)
  ∧ listenerRunning
      (listenerStart true 0 [example_callback]
         (listenerSetEatKeys [PyList [PyLong 5]] example_world).2).2 = 1
  ∧ registry
      (listenerStart true 0 [example_callback]
         (listenerSetEatKeys [PyList [PyLong 5]] example_world).2).2 = []
  ∧ (∀ pycall type event,
       verdict_of
         (eventCallback pycall type event
            (listenerStart true 0 [example_callback]
               (listenerSetEatKeys [PyList [PyLong 5]] example_world).2).2).1
       = Allow).
Proof.
  apply (C5_start_empties_registry true 0 [PyList [PyLong 5]] [example_callback]
           example_world); discriminate.
Defined.

(** ** An invariant of all runs *)

Lemma listener_inv_initial refs : listener_inv (initial refs).
Proof.
  unfold listener_inv, registry_wf. split; [split|].
  - apply length_replicate.
  - done.
  - repeat split; (done || by left).
Qed.

Lemma listener_inv_start trusted err args w :
  listener_inv w → listener_inv (listenerStart trusted err args w).2.
Proof.
  intros Hinv. pose proof Hinv as ((Hlen & Hnum) & Hflag & Hcb & Hthreads).
  unfold listenerStart, PyArg_ParseTuple_O.
  destruct args as [|callback [|? ?]]; try exact Hinv.
  destruct callback as [| | | | | |fid]; try exact Hinv. simpl.
  destruct (Z.eqb_spec (listenerRunning w) 0) as [Hstopped|]; simpl; [|exact Hinv].
  destruct trusted; simpl; [|exact Hinv].
  rewrite (Hcb Hstopped). simpl. unfold pthread_create.
  destruct (err =? 0); simpl; unfold listener_inv, registry_wf; simpl;
    repeat split; try (done || lia || by left || by right).
Qed.

Lemma listener_inv_stop w : listener_inv w → listener_inv (listenerStop w).2.
Proof.
  intros Hinv. pose proof Hinv as ((Hlen & Hnum) & Hflag & Hcb & Hthreads).
  unfold listenerStop.
  destruct (Z.eqb_spec (listenerRunning w) 0) as [Hstopped|Hrunning]; [done|].
  unfold listener_inv, registry_wf, pthread_join. simpl.
  destruct (callbackObj w) as [[]|]; simpl; repeat split;
    try (done || lia || by left).
Qed.

Lemma listener_inv_setEatKeys args w :
  listener_inv w → listener_inv (listenerSetEatKeys args w).2.
Proof.
  intros (Hwf & Hflag & Hcb & Hthreads).
  destruct args as [|keyList [|? ?]]; try done.
  destruct keyList as [| | | | |items|]; try done.
  destruct (Z.lt_ge_cases MAX_EAT_KEYS (Z.of_nat (length items))) as [Hlong|Hfit].
  - by rewrite listenerSetEatKeys_too_many.
  - destruct (listenerSetEatKeys_within items w) as (_ & Hwf' & Hsame & _);
      [apply Hwf|lia|].
    unfold same_outside_registry in Hsame.
    destruct Hsame as (_ & _ & _ & Hcb' & Hrun' & _ & _ & _ & _ & _ & Hcr & Hjo & _).
    unfold listener_inv. by rewrite Hcb', Hrun', Hcr, Hjo.
Qed.

Lemma listener_inv_thread tap loop w :
  listener_inv w → listener_inv (eventLoopThread tap loop w).
Proof. unfold eventLoopThread. by destruct tap. Qed.

Lemma listener_inv_event pycall type event w :
  listener_inv w → listener_inv (eventCallback pycall type event w).2.
Proof.
  intros Hinv. unfold eventCallback, PyObject_CallFunctionObjArgs.
  destruct (callbackObj w) as [cb|] eqn:Hcb; [|done].
  destruct (pycall w cb (eventDict type event)) as [result|e]; simpl.
  - destruct result; exact Hinv.
  - unfold PyErr_Print. simpl. destruct (exc_type e); exact Hinv.
Qed.

(** Every reachable world has a well-formed registry, a running flag that
    is 0 or 1, no callback while stopped, and one unjoined capture thread
    exactly while running. *)
Theorem reachable_inv pycall w : reachable pycall w → listener_inv w.
Proof.
  induction 1 as [refs|trusted err args w _ IH|w _ IH|args w _ IH
                  |tap loop w _ IH|type event w _ IH].
  - apply listener_inv_initial.
  - by apply listener_inv_start.
  - by apply listener_inv_stop.
  - by apply listener_inv_setEatKeys.
  - by apply listener_inv_thread.
  - by apply listener_inv_event.
Qed.

(** The worlds used in the examples are reachable. *)
Lemma running_world_reachable pycall : reachable pycall running_world.
Proof. apply reach_setEatKeys, reach_start, reach_initial. Qed.

(** ** Corollaries for reachable worlds *)

(** Whatever the argument, [start] in a running listener returns NULL,
    creates no thread and changes only the error indicator. *)
Lemma start_while_running_changes_nothing trusted err args w :
  listenerRunning w ≠ 0 →
  (listenerStart trusted err args w).1 = None
  ∧ ∃ e, (listenerStart trusted err args w).2 = set_curexc (Some e) w.
Proof.
  intros Hrunning. apply Z.eqb_neq in Hrunning.
  unfold listenerStart, PyArg_ParseTuple_O.
  destruct args as [|callback [|? ?]]; try (split; [done|by eexists]).
  destruct (PyCallable_Check callback); simpl; [|split; [done|by eexists]].
  rewrite Hrunning. simpl. split; [done|by eexists].
Qed.

(** In a reachable world a stopped listener holds no callback, so the
    roll-back of a failed [start] restores every reference count. *)
Lemma spawn_failure_in_reachable_world pycall err callback w :
  reachable pycall w →
  PyCallable_Check callback = true →
  listenerRunning w = 0 →
  err ≠ 0 →
  callbackObj (listenerStart true err [callback] w).2 = None
  ∧ listenerRunning (listenerStart true err [callback] w).2 = 0
  ∧ registry (listenerStart true err [callback] w).2 = []
  ∧ threadsCreated (listenerStart true err [callback] w).2 = threadsCreated w.
Proof.
  intros Hreach Hcallable Hstopped Herr.
  destruct (reachable_inv _ _ Hreach) as (_ & _ & Hcb & _).
  specialize (Hcb Hstopped). apply Z.eqb_neq in Herr.
  destruct callback as [| | | | | |fid]; try discriminate.
  unfold listenerStart, pthread_create, registry. simpl.
  rewrite Hstopped, Hcb, Herr. simpl. repeat split. by rewrite Hstopped.
Qed.

(** A list of 1025 integers is one too many. *)
Example one_key_too_many :
  TooMany (listenerSetEatKeys [PyList (replicate 1025 (PyLong 7))] running_world)
  ∧ registry (listenerSetEatKeys [PyList (replicate 1025 (PyLong 7))] running_world).2
    = [5; 12].
Proof. split; [split|]; reflexivity. Qed.

(** * Further properties of the code *)

(** ** [listenerStop] and the lifecycle *)

Lemma listenerStop_result w :
  (listenerStop w).1 = Some PyNone ∧ listenerRunning (listenerStop w).2 = 0.
Proof.
  unfold listenerStop.
  destruct (Z.eqb_spec (listenerRunning w) 0) as [Hstopped|Hrunning]; [done|].
  by destruct (callbackObj w) as [[]|].
Qed.


Lemma listenerStart_ok_inv trusted err args w :
  (listenerStart trusted err args w).1 ≠ None →
  ∃ fid, args = [PyFunction fid] ∧ trusted = true ∧ err = 0 ∧ listenerRunning w = 0.
Proof.
  unfold listenerStart, PyArg_ParseTuple_O.
  destruct args as [|callback [|? ?]]; try done.
  destruct callback as [| | | | | |fid]; try done. simpl.
  destruct (Z.eqb_spec (listenerRunning w) 0) as [Hstopped|]; [|done]. simpl.
  destruct trusted; [|done]. simpl.
  destruct (Z.eqb_spec err 0) as [Herr|]; [|done]. intros _.
  by exists fid.
Qed.

Lemma listenerStart_ok_world fid w :
  listenerRunning w = 0 →
  callbackObj w = None →
  listenerStart true 0 [PyFunction fid] w = (Some PyNone, started_world fid w).
Proof.
  intros Hstopped Hnone. unfold listenerStart, pthread_create. simpl.
  rewrite Hstopped. simpl. by rewrite Hnone.
Qed.

Lemma listenerStop_running_world w :
  listenerRunning w ≠ 0 →
  listenerStop w = (Some PyNone, stopped_world (callbackObj w) w).
Proof.
  intros Hrunning. apply Z.eqb_neq in Hrunning.
  unfold listenerStop, pthread_join. rewrite Hrunning. simpl.
  destruct (callbackObj w) as [[]|]; reflexivity.
Qed.

(** X2: a successful [start], the set-up of the tap by the capture thread
    (whether or not the tap could be created) and [stop] form a round trip.
    While running, the extension holds one more reference to the callback;
    after [stop] every reference count is what it was, no callback is
    stored, the tap and run loop pointers are NULL, the mutex is destroyed,
    and exactly one thread was created and joined. *)
Theorem X2_start_stop_round_trip
    (trusted : bool) (err : Z) (callback : PyObject) (tap : option Z) (loop : Z)
    (w : World) :
  callbackObj w = None →
  (listenerStart trusted err [callback] w).1 ≠ None →
  listenerIsRunning (listenerStart trusted err [callback] w).2 = PyBool true
  ∧ (∃ fid, callback = PyFunction fid
       ∧ refcnt (listenerStart trusted err [callback] w).2 fid = S (refcnt w fid))
  ∧ (listenerStop
       (eventLoopThread tap loop (listenerStart trusted err [callback] w).2)).1
    = Some PyNone
  ∧ listenerIsRunning
      (listenerStop
         (eventLoopThread tap loop (listenerStart trusted err [callback] w).2)).2
    = PyBool false
  ∧ callbackObj
      (listenerStop
         (eventLoopThread tap loop (listenerStart trusted err [callback] w).2)).2
    = None
  ∧ eventTap
      (listenerStop
         (eventLoopThread tap loop (listenerStart trusted err [callback] w).2)).2
    = None
  ∧ runLoop
      (listenerStop
         (eventLoopThread tap loop (listenerStart trusted err [callback] w).2)).2
    = None
  ∧ eatKeysMutex
      (listenerStop
         (eventLoopThread tap loop (listenerStart trusted err [callback] w).2)).2
    = false
  ∧ (∀ id,
       refcnt
         (listenerStop
            (eventLoopThread tap loop (listenerStart trusted err [callback] w).2)).2 id
       = refcnt w id)
  ∧ threadsCreated
      (listenerStop
         (eventLoopThread tap loop (listenerStart trusted err [callback] w).2)).2
    = S (threadsCreated w)
  ∧ threadsJoined
      (listenerStop
         (eventLoopThread tap loop (listenerStart trusted err [callback] w).2)).2
    = S (threadsJoined w).
Proof.
  intros Hnone Hok.
  destruct (listenerStart_ok_inv _ _ _ _ Hok) as (fid & [= ->] & -> & -> & Hstopped).
  rewrite (listenerStart_ok_world fid w Hstopped Hnone). cbn [fst snd].
  split; [done|]. split.
  { exists fid. split; [done|]. unfold refcnt at 1. simpl. by rewrite lookup_insert_eq. }
  rewrite listenerStop_running_world by (by destruct tap). cbn [fst snd].
  assert (callbackObj (eventLoopThread tap loop (started_world fid w))
          = Some (PyFunction fid)) as -> by (by destruct tap).
  do 6 (split; [done|]). split; [|by destruct tap].
  intros id. unfold refcnt. destruct tap as [port|]; simpl; unfold refcnt; simpl;
    (destruct (decide (fid = id)) as [->|Hne];
     [by rewrite !lookup_insert_eq|by rewrite !lookup_insert_ne]).
Qed.

Lemma X2_start_stop_round_trip_witness :
  listenerIsRunning (listenerStart true 0 [example_callback] example_world).2 = PyBool true
  ∧ (∃ fid, example_callback = PyFunction fid
       ∧ refcnt (listenerStart true 0 [example_callback] example_world).2 fid
         = S (refcnt example_world fid))
  ∧ (listenerStop
       (eventLoopThread (Some 77) 88
          (listenerStart true 0 [example_callback] example_world).2)).1
    = Some PyNone
  ∧ listenerIsRunning
      (listenerStop
         (eventLoopThread (Some 77) 88
            (listenerStart true 0 [example_callback] example_world).2)).2
    = PyBool false
  ∧ callbackObj
      (listenerStop
         (eventLoopThread (Some 77) 88
            (listenerStart true 0 [example_callback] example_world).2)).2
    = None
  ∧ eventTap
      (listenerStop
         (eventLoopThread (Some 77) 88
            (listenerStart true 0 [example_callback] example_world).2)).2
    = None
  ∧ runLoop
      (listenerStop
         (eventLoopThread (Some 77) 88
            (listenerStart true 0 [example_callback] example_world).2)).2
    = None
  ∧ eatKeysMutex
      (listenerStop
         (eventLoopThread (Some 77) 88
            (listenerStart true 0 [example_callback] example_world).2)).2
    = false
  ∧ (∀ id,
       refcnt
         (listenerStop
            (eventLoopThread (Some 77) 88
               (listenerStart true 0 [example_callback] example_world).2)).2 id
       = refcnt example_world id)
  ∧ threadsCreated
      (listenerStop
         (eventLoopThread (Some 77) 88
            (listenerStart true 0 [example_callback] example_world).2)).2
    = S (threadsCreated example_world)
  ∧ threadsJoined
      (listenerStop
         (eventLoopThread (Some 77) 88
            (listenerStart true 0 [example_callback] example_world).2)).2
    = S (threadsJoined example_world).
Proof.
  apply (X2_start_stop_round_trip true 0 example_callback (Some 77) 88 example_world);
    [reflexivity|discriminate].
Defined.

(** X3: [start] succeeds exactly when it is given one callable argument, the
    listener is not running, the process is trusted for accessibility and
    the thread could be created. *)
Theorem X3_start_succeeds_iff
    (trusted : bool) (err : Z) (args : list PyObject) (w : World) :
  (listenerStart trusted err args w).1 = Some PyNone
  ↔ ∃ callback, args = [callback] ∧ PyCallable_Check callback = true
      ∧ listenerRunning w = 0 ∧ trusted = true ∧ err = 0.
Proof.
  unfold listenerStart, PyArg_ParseTuple_O. split.
  - destruct args as [|callback [|? ?]]; try done.
    destruct (PyCallable_Check callback) eqn:Hcallable; [|done]. simpl.
    destruct (Z.eqb_spec (listenerRunning w) 0) as [Hstopped|]; [|done]. simpl.
    destruct trusted; [|done]. simpl.
    destruct (Z.eqb_spec err 0) as [Herr|]; [|done]. intros _.
    exists callback. by repeat split.
  - intros (callback & -> & Hcallable & Hstopped & -> & ->).
    rewrite Hcallable, Hstopped. done.
Qed.

(** X4: without the accessibility permission [start] fails with
    [PermissionError] before it touches anything: the registry is not
    reset, the callback is not stored and no thread is created; only the
    error indicator changes. *)
Theorem X4_permission_denied_changes_nothing
    (err : Z) (callback : PyObject) (w : World) :
  PyCallable_Check callback = true →
  listenerRunning w = 0 →
  listenerStart false err [callback] w
  = (None, PyErr_SetString PyExc_PermissionError permission_message w).
Proof.
  intros Hcallable Hstopped. unfold listenerStart. simpl.
  by rewrite Hcallable, Hstopped.
Qed.

Lemma X4_permission_denied_changes_nothing_witness :
  listenerStart false 0 [example_callback] stopped_with_keys
  = (None, PyErr_SetString PyExc_PermissionError permission_message stopped_with_keys).
Proof.
  apply (X4_permission_denied_changes_nothing 0 example_callback stopped_with_keys);
    reflexivity.
Defined.

(** X5: a [start] that fails, for whatever reason, leaves the listener as it
    found it: same running flag, no callback stored, no thread left behind
    and every reference count as before. *)
Theorem X5_failed_start_leaves_no_trace
    (trusted : bool) (err : Z) (args : list PyObject) (w : World) :
  (listenerRunning w = 0 → callbackObj w = None) →
  (listenerStart trusted err args w).1 = None →
  listenerRunning (listenerStart trusted err args w).2 = listenerRunning w
  ∧ callbackObj (listenerStart trusted err args w).2 = callbackObj w
  ∧ threadsCreated (listenerStart trusted err args w).2 = threadsCreated w
  ∧ threadsJoined (listenerStart trusted err args w).2 = threadsJoined w
  ∧ eventTap (listenerStart trusted err args w).2 = eventTap w
  ∧ runLoop (listenerStart trusted err args w).2 = runLoop w
  ∧ (∀ id, refcnt (listenerStart trusted err args w).2 id = refcnt w id).
Proof.
  intros Hinv. unfold listenerStart, PyArg_ParseTuple_O.
  destruct args as [|callback [|? ?]]; try done.
  destruct callback as [| | | | | |fid]; try done. simpl.
  destruct (Z.eqb_spec (listenerRunning w) 0) as [Hstopped|]; [|done]. simpl.
  destruct trusted; [|done]. simpl. unfold pthread_create.
  rewrite (Hinv Hstopped).
  destruct (err =? 0); [done|]. simpl. intros _.
  do 6 (split; [done|]). intros id.
  unfold refcnt. simpl. unfold refcnt. simpl.
  destruct (decide (fid = id)) as [->|Hne].
  - by rewrite !lookup_insert_eq.
  - by rewrite !lookup_insert_ne.
Qed.

Lemma X5_failed_start_leaves_no_trace_witness :
  listenerRunning (listenerStart true 11 [example_callback] stopped_with_keys).2
    = listenerRunning stopped_with_keys
  ∧ callbackObj (listenerStart true 11 [example_callback] stopped_with_keys).2
    = callbackObj stopped_with_keys
  ∧ threadsCreated (listenerStart true 11 [example_callback] stopped_with_keys).2
    = threadsCreated stopped_with_keys
  ∧ threadsJoined (listenerStart true 11 [example_callback] stopped_with_keys).2
    = threadsJoined stopped_with_keys
  ∧ eventTap (listenerStart true 11 [example_callback] stopped_with_keys).2
    = eventTap stopped_with_keys
  ∧ runLoop (listenerStart true 11 [example_callback] stopped_with_keys).2
    = runLoop stopped_with_keys
  ∧ (∀ id, refcnt (listenerStart true 11 [example_callback] stopped_with_keys).2 id
           = refcnt stopped_with_keys id).
Proof.
  apply (X5_failed_start_leaves_no_trace true 11 [example_callback] stopped_with_keys);
    reflexivity.
Defined.

(** ** What holds in every run *)



(** X7: in every reachable world the registry fits its array: the array has
    1024 cells, the count is between 0 and 1024, and the registry has
    exactly that many entries. *)
Theorem X7_registry_within_capacity
    (pycall : World → PyObject → PyDict → CallOutcome) (w : World) :
  reachable pycall w →
  length (eatKeys w) = 1024%nat
  ∧ 0 ≤ numEatKeys w ≤ 1024
  ∧ Z.of_nat (length (registry w)) = numEatKeys w.
Proof.
  intros Hreach. destruct (reachable_inv _ _ Hreach) as ((Hlen & Hnum) & _).
  unfold MAX_EAT_KEYS in *. split; [by rewrite Hlen|]. split; [done|].
  unfold registry. rewrite length_take, Hlen. lia.
Qed.

Lemma X7_registry_within_capacity_witness :
  length (eatKeys running_world) = 1024%nat
  ∧ 0 ≤ numEatKeys running_world ≤ 1024
  ∧ Z.of_nat (length (registry running_world)) = numEatKeys running_world.
Proof.
  apply (X7_registry_within_capacity quiet_callback running_world).
  apply reach_setEatKeys, reach_start, reach_initial.
Defined.

(** X8: while the listener is stopped, in any reachable world, the events
    still delivered are all passed on unchanged, whatever the registry
    holds, and nothing else happens: no call into Python, no change of the
    world. *)
Theorem X8_stopped_listener_passes_everything
    (pycall : World → PyObject → PyDict → CallOutcome)
    (events : list (Z * CGEvent)) (w : World) :
  reachable pycall w →
  listenerRunning w = 0 →
  deliver pycall events w = (map (λ te, Some te.2) events, w).
Proof.
  intros Hreach Hstopped.
  destruct (reachable_inv _ _ Hreach) as (_ & _ & Hcb & _).
  specialize (Hcb Hstopped).
  induction events as [|[type event] rest IH]; [done|].
  simpl. unfold eventCallback. rewrite Hcb, IH. done.
Qed.

Lemma X8_stopped_listener_passes_everything_witness :
  deliver quiet_callback
    [(kCGEventKeyDown, key_event 5); (kCGEventKeyUp, key_event 5)] stopped_with_keys
  = (map (λ te, Some te.2)
       [(kCGEventKeyDown, key_event 5); (kCGEventKeyUp, key_event 5)],
     stopped_with_keys).
Proof.
  apply (X8_stopped_listener_passes_everything quiet_callback
           [(kCGEventKeyDown, key_event 5); (kCGEventKeyUp, key_event 5)]
           stopped_with_keys).
  - apply reach_setEatKeys, reach_initial.
  - reflexivity.
Defined.

(** ** [setEatKeys] and the events after it *)

Lemma int_of_long_representable (k : Z) :
  representable_as_int k → int_of_long k = k.
Proof.
  unfold representable_as_int, int_of_long. intros Hk.
  rewrite Z.mod_small by lia. lia.
Qed.

Lemma eaten_key_PyLong (codes : list Z) :
  Forall representable_as_int codes →
  forallb PyLong_Check (PyLong <$> codes) = true
  ∧ map eaten_key (int_prefix (PyLong <$> codes)) = codes.
Proof.
  induction 1 as [|k rest Hk _ [IHcheck IHmap]]; [done|].
  csimpl. split; [done|]. rewrite IHmap. f_equal.
  rewrite eaten_key_fits.
  - by apply int_of_long_representable.
  - unfold representable_as_int in Hk. simpl. unfold LONG_MIN, LONG_MAX. lia.
Qed.

Lemma keyCode_of_range (event : CGEvent) : 0 ≤ keyCode_of event < 2 ^ 16.
Proof. unfold keyCode_of, CGKeyCode_of. by apply Z.mod_pos_bound. Qed.

(** X9: after [setEatKeys] with a list of at most 1024 integers in the range
    of a C [int], which succeeds, a key-down or key-up event is suppressed
    exactly when its key code is one of the integers of the list. The
    previous registry plays no part. *)
Theorem X9_keys_set_are_keys_suppressed
    (codes : list Z) (w : World) (cb : PyObject) :
  callbackObj w = Some cb →
  length (eatKeys w) = Z.to_nat MAX_EAT_KEYS →
  Z.of_nat (length codes) ≤ MAX_EAT_KEYS →
  Forall representable_as_int codes →
  (listenerSetEatKeys [PyList (PyLong <$> codes)] w).1 = Some PyNone
  ∧ registry (listenerSetEatKeys [PyList (PyLong <$> codes)] w).2 = codes
  ∧ (∀ pycall type event,
       is_key_type type = true →
       (verdict_of
          (eventCallback pycall type event
             (listenerSetEatKeys [PyList (PyLong <$> codes)] w).2).1 = Suppress
        ↔ keyCode_of event ∈ codes)).
Proof.
  intros Hcb Hlen Hfit Hcodes.
  destruct (eaten_key_PyLong codes Hcodes) as [Hcheck Hmap].
  destruct (listenerSetEatKeys_within (PyLong <$> codes) w Hlen)
    as (Hreg & _ & Hsame & Hres); [by rewrite length_fmap|].
  rewrite Hcheck in Hres. rewrite Hmap in Hreg.
  split; [done|]. split; [done|]. intros pycall type event Hkey.
  destruct Hsame as (_ & _ & _ & Hcb' & _). rewrite Hcb in Hcb'.
  rewrite (eventCallback_verdict pycall _ _ _ cb Hcb').
  unfold verdict_before_dispatch. rewrite Hkey. simpl.
  pose proof (shouldEatKey_nonzero (keyCode_of event)
                (listenerSetEatKeys [PyList (PyLong <$> codes)] w).2) as Hnz.
  rewrite Hreg in Hnz. rewrite <- Hnz.
  destruct (negb _); split; (done || discriminate).
Qed.

Lemma X9_keys_set_are_keys_suppressed_witness :
  (listenerSetEatKeys [PyList (PyLong <$> [7; 300; -1])] running_world).1 = Some PyNone
  ∧ registry (listenerSetEatKeys [PyList (PyLong <$> [7; 300; -1])] running_world).2
    = [7; 300; -1]
  ∧ (∀ pycall type event,
       is_key_type type = true →
       (verdict_of
          (eventCallback pycall type event
             (listenerSetEatKeys [PyList (PyLong <$> [7; 300; -1])] running_world).2).1
          = Suppress
        ↔ keyCode_of event ∈ [7; 300; -1])).
Proof.
  apply (X9_keys_set_are_keys_suppressed [7; 300; -1] running_world example_callback);
    [reflexivity|reflexivity|vm_compute; discriminate|].
  repeat (apply Forall_cons; split; [unfold representable_as_int; lia|]).
  apply Forall_nil_2.
Defined.

(** X10: registry entries outside the range of a key code (negative, or
    65536 and more) are never matched: if the registry holds only such
    entries, every event is allowed. *)
Theorem X10_entries_out_of_range_never_match
    (pycall : World → PyObject → PyDict → CallOutcome)
    (type : Z) (event : CGEvent) (w : World) :
  (∀ k, k ∈ registry w → ¬ representable_as_CGKeyCode k) →
  (eventCallback pycall type event w).1 = Some event.
Proof.
  intros Hdead. unfold eventCallback.
  destruct (callbackObj w) as [cb|]; [|done].
  destruct (PyObject_CallFunctionObjArgs pycall cb (eventDict type event) w) as [result w'].
  destruct (is_key_type type); [|done]. fold (keyCode_of event).
  pose proof (shouldEatKey_nonzero (keyCode_of event) w) as Hreg.
  destruct (negb _); [|done].
  destruct (Hdead (keyCode_of event)); [by apply Hreg|apply keyCode_of_range].
Qed.

Lemma X10_entries_out_of_range_never_match_witness :
  (eventCallback quiet_callback kCGEventKeyDown (key_event 4464)
     (listenerSetEatKeys [PyList [PyLong 70000; PyLong (-1)]] running_world).2).1
  = Some (key_event 4464).
Proof.
  apply (X10_entries_out_of_range_never_match quiet_callback kCGEventKeyDown
           (key_event 4464)
           (listenerSetEatKeys [PyList [PyLong 70000; PyLong (-1)]] running_world).2).
  intros k Hin. vm_compute in Hin.
  apply elem_of_cons in Hin as [->|Hin]; [unfold representable_as_CGKeyCode; lia|].
  apply elem_of_cons in Hin as [->|Hin]; [unfold representable_as_CGKeyCode; lia|].
  by apply elem_of_nil in Hin.
Defined.

(** X11: [setEatKeys] called with anything but one list (no argument,
    several arguments, or one object that is not a list) fails with a
    [TypeError] and changes nothing but the error indicator. *)
Theorem X11_setEatKeys_needs_one_list (args : list PyObject) (w : World) :
  (∀ items, args ≠ [PyList items]) →
  ∃ msg, listenerSetEatKeys args w = (None, PyErr_SetString PyExc_TypeError msg w).
Proof.
  intros Hnot. unfold listenerSetEatKeys, PyArg_ParseTuple_O.
  destruct args as [|keyList [|? ?]]; try by eexists.
  destruct keyList as [| | | | |items|]; try by eexists.
  by destruct (Hnot items).
Qed.

Lemma X11_setEatKeys_needs_one_list_witness :
  ∃ msg, listenerSetEatKeys [PyLong 5] running_world
         = (None, PyErr_SetString PyExc_TypeError msg running_world).
Proof.
  apply (X11_setEatKeys_needs_one_list [PyLong 5] running_world). discriminate.
Defined.

Lemma listenerSetEatKeys_loop_frame (items : list PyObject) (w : World) :
  same_outside_registry w (listenerSetEatKeys_loop items w).2
  ∧ length (eatKeys (listenerSetEatKeys_loop items w).2) = length (eatKeys w).
Proof.
  revert w. induction items as [|item rest IH]; intros w; [by repeat split|].
  simpl. destruct (PyLong_Check item); simpl; [|by repeat split].
  destruct (PyLong_AsLong item w) as [v w1] eqn:Hlong.
  pose proof (PyLong_AsLong_world item w) as (Hkeys & _ & Hsame).
  rewrite Hlong in Hkeys, Hsame. simpl in Hkeys, Hsame.
  match goal with |- context [listenerSetEatKeys_loop rest ?w2] =>
    destruct (IH w2) as [Hframe Hlen]; rewrite Hlen; simpl;
    split; [|by rewrite length_insert, Hkeys];
    apply (same_outside_registry_trans _ w2); [|done]
  end.
  unfold same_outside_registry in *. simpl. done.
Qed.

(** X12: [setEatKeys] never touches the lifecycle: whatever its arguments
    and whether it succeeds or fails, the stored callback, the running flag,
    the tap, the threads, the reference counts and the log of calls are as
    before, and the array keeps its size. *)
Theorem X12_setEatKeys_keeps_lifecycle (args : list PyObject) (w : World) :
  same_outside_registry w (listenerSetEatKeys args w).2
  ∧ length (eatKeys (listenerSetEatKeys args w).2) = length (eatKeys w)
  ∧ listenerIsRunning (listenerSetEatKeys args w).2 = listenerIsRunning w.
Proof.
  assert (same_outside_registry w (listenerSetEatKeys args w).2
          ∧ length (eatKeys (listenerSetEatKeys args w).2) = length (eatKeys w))
    as [Hsame Hlen].
  { unfold listenerSetEatKeys, PyArg_ParseTuple_O.
    destruct args as [|keyList [|? ?]]; try by repeat split.
    destruct keyList as [| | | | |items|]; try by repeat split.
    destruct (MAX_EAT_KEYS <? _); [by repeat split|].
    destruct (listenerSetEatKeys_loop_frame items (set_numEatKeys 0 w)) as [Hsame Hlen].
    split; [|done]. unfold same_outside_registry in *. simpl in Hsame. done. }
  split; [done|]. split; [done|].
  unfold listenerIsRunning. destruct Hsame as (_ & _ & _ & _ & -> & _). done.
Qed.

(** ** What [eventCallback] returns *)

Lemma eventCallback_return pycall type event w cb :
  callbackObj w = Some cb →
  (eventCallback pycall type event w).1
  = returned_for (verdict_before_dispatch type event w) event.
Proof.
  intros Hcb. unfold eventCallback, verdict_before_dispatch, keyCode_of. rewrite Hcb.
  destruct (PyObject_CallFunctionObjArgs pycall cb (eventDict type event) w) as [result w'].
  simpl. destruct (is_key_type type); [|done].
  simpl. by destruct (negb _).
Qed.

(** ** The record and the mask *)

(** X15: the keys of the record depend on the category of the event type
    alone: nine keys for a key event (no position), six for a button event
    and four for a motion event (no key code, no modifiers), and the
    timestamp alone for any other type. *)
Theorem X15_record_fields_by_category (type : Z) (event : CGEvent) :
  dom (eventDict type event) = fields_of type.
Proof.
  unfold fields_of.
  destruct (is_key_type type) eqn:Hkey.
  { rewrite eventDict_key by done. unfold key_record, key_fields.
    rewrite !dom_insert_L, dom_singleton_L. set_solver. }
  destruct (is_button_type type) eqn:Hbutton.
  { destruct (button_typeStr_Some type Hbutton) as [tag Htag].
    rewrite (eventDict_button type event tag) by done.
    unfold button_record, button_fields.
    rewrite !dom_insert_L, dom_singleton_L. set_solver. }
  destruct (is_motion_type type) eqn:Hmotion.
  { destruct (motion_typeStr_Some type Hmotion) as [tag Htag].
    rewrite (eventDict_motion type event tag) by done.
    unfold motion_record, motion_fields.
    rewrite !dom_insert_L, dom_singleton_L. set_solver. }
  rewrite eventDict_unhandled by done. unfold minimal_record.
  by rewrite dom_singleton_L.
Qed.

(** X16: the mask built by [eventLoopThread] and the branches of
    [eventCallback] agree: the tap accepts a type exactly when the callback
    has a key, button or motion branch for it. Drags of other buttons,
    modifier changes and scrolling are not accepted. *)
Theorem X16_mask_matches_branches (type : Z) :
  (accepted_by_mask type = true
   ↔ is_key_type type || is_button_type type || is_motion_type type = true)
  ∧ accepted_by_mask kCGEventOtherMouseDragged = false
  ∧ accepted_by_mask kCGEventFlagsChanged = false
  ∧ accepted_by_mask kCGEventScrollWheel = false.
Proof.
  split; [|by repeat split]. rewrite accepted_by_mask_types. split.
  - intros Hin. repeat (apply elem_of_cons in Hin as [->|Hin]; [reflexivity|]).
    by apply elem_of_nil in Hin.
  - unfold is_key_type, is_button_type, is_motion_type. intros Hor.
    repeat (apply orb_true_iff in Hor as [Hor|Hor]);
      apply Z.eqb_eq in Hor; subst type; vm_compute; set_solver.
Qed.

(** ** Integers too large for a C long *)

Lemma listenerSetEatKeys_loop_ints (items : list PyObject) (w : World) :
  forallb PyLong_Check items = true →
  (listenerSetEatKeys_loop items w).1 = Some PyNone
  ∧ curexc (listenerSetEatKeys_loop items w).2
    = if forallb fits_long items then curexc w else Some long_overflow.
Proof.
  revert w. induction items as [|item rest IH]; intros w Hints; [done|].
  simpl in Hints. apply andb_true_iff in Hints as [Hitem Hrest].
  simpl. rewrite Hitem. simpl.
  destruct item as [|b|z| | | |]; try discriminate; simpl.
  - match goal with |- context [listenerSetEatKeys_loop rest ?w2] =>
      destruct (IH w2 Hrest) as [Hres Hexc]; rewrite Hres, Hexc end.
    done.
  - destruct ((LONG_MIN <=? z) && (z <=? LONG_MAX)); simpl.
    + match goal with |- context [listenerSetEatKeys_loop rest ?w2] =>
        destruct (IH w2 Hrest) as [Hres Hexc]; rewrite Hres, Hexc end.
      done.
    + match goal with |- context [listenerSetEatKeys_loop rest ?w2] =>
        destruct (IH w2 Hrest) as [Hres Hexc]; rewrite Hres, Hexc end.
      split; [done|]. by destruct (forallb fits_long rest).
Qed.

(** X17: a list of at most 1024 integers is always accepted: [setEatKeys]
    returns [None]. When every integer fits a C long the error indicator is
    left as it was; when one does not, the call still returns [None] but
    leaves the [OverflowError] of the conversion pending. *)
Theorem X17_integers_always_accepted (items : list PyObject) (w : World) :
  forallb PyLong_Check items = true →
  Z.of_nat (length items) ≤ MAX_EAT_KEYS →
  (listenerSetEatKeys [PyList items] w).1 = Some PyNone
  ∧ curexc (listenerSetEatKeys [PyList items] w).2
    = if forallb fits_long items then curexc w else Some long_overflow.
Proof.
  intros Hints Hfit. unfold listenerSetEatKeys. simpl.
  destruct (Z.ltb_spec MAX_EAT_KEYS (Z.of_nat (length items))) as [?|_]; [lia|].
  apply (listenerSetEatKeys_loop_ints items (set_numEatKeys 0 w) Hints).
Qed.

Lemma X17_integers_always_accepted_witness :
  (listenerSetEatKeys [PyList [PyLong 7; PyLong (2 ^ 63); PyBool true]] running_world).1
    = Some PyNone
  ∧ curexc (listenerSetEatKeys [PyList [PyLong 7; PyLong (2 ^ 63); PyBool true]]
              running_world).2
    = if forallb fits_long [PyLong 7; PyLong (2 ^ 63); PyBool true]
      then curexc running_world else Some long_overflow.
Proof.
  apply (X17_integers_always_accepted [PyLong 7; PyLong (2 ^ 63); PyBool true]
           running_world); [reflexivity|vm_compute; discriminate].
Defined.

(** The witness, evaluated: the too large integer is stored as -1. *)
Example too_large_integer_stored :
  registry (listenerSetEatKeys [PyList [PyLong 7; PyLong (2 ^ 63); PyBool true]]
              running_world).2 = [7; -1; 1]
  ∧ curexc (listenerSetEatKeys [PyList [PyLong 7; PyLong (2 ^ 63); PyBool true]]
              running_world).2 = Some long_overflow.
Proof. split; reflexivity. Qed.

(** ** Restarting *)

(** X18: after [stop] the listener can always be started again: with a
    callable, the permission and a thread, [start] succeeds in the world
    [stop] leaves, whatever came before. The new session runs with the new
    callback and an empty registry, so nothing of an earlier [setEatKeys]
    is suppressed. *)
Theorem X18_clean_restart (callback : PyObject) (w : World) :
  PyCallable_Check callback = true →
  (listenerStart true 0 [callback] (listenerStop w).2).1 = Some PyNone
  ∧ listenerIsRunning (listenerStart true 0 [callback] (listenerStop w).2).2
    = PyBool true
  ∧ callbackObj (listenerStart true 0 [callback] (listenerStop w).2).2 = Some callback
  ∧ registry (listenerStart true 0 [callback] (listenerStop w).2).2 = []
  ∧ (∀ pycall type event,
       (eventCallback pycall type event
          (listenerStart true 0 [callback] (listenerStop w).2).2).1 = Some event).
Proof.
  intros Hcallable. destruct (listenerStop_result w) as [_ Hflag].
  assert ((listenerStart true 0 [callback] (listenerStop w).2).1 = Some PyNone) as Hok.
  { unfold listenerStart. simpl. by rewrite Hcallable, Hflag. }
  destruct (listenerStart_success true 0 [callback] (listenerStop w).2)
    as (Hzero & Hrun & _ & _ & cb & [= <-] & _ & Hcb); [by rewrite Hok|].
  split; [done|]. split; [unfold listenerIsRunning; by rewrite Hrun|].
  split; [done|]. split; [unfold registry; by rewrite Hzero|].
  intros pycall type event.
  rewrite (eventCallback_return pycall type event _ callback Hcb).
  unfold verdict_before_dispatch, shouldEatKey. rewrite Hzero. simpl.
  by rewrite andb_false_r.
Qed.

Lemma X18_clean_restart_witness :
  (listenerStart true 0 [PyFunction 2%positive] (listenerStop running_world).2).1
    = Some PyNone
  ∧ listenerIsRunning
      (listenerStart true 0 [PyFunction 2%positive] (listenerStop running_world).2).2
    = PyBool true
  ∧ callbackObj
      (listenerStart true 0 [PyFunction 2%positive] (listenerStop running_world).2).2
    = Some (PyFunction 2%positive)
  ∧ registry
      (listenerStart true 0 [PyFunction 2%positive] (listenerStop running_world).2).2
    = []
  ∧ (∀ pycall type event,
       (eventCallback pycall type event
          (listenerStart true 0 [PyFunction 2%positive]
             (listenerStop running_world).2).2).1 = Some event).
Proof.
  apply (X18_clean_restart (PyFunction 2%positive) running_world). reflexivity.
Defined.

(** X19: when the capture thread cannot create the tap it returns with the
    pointers left NULL, but the listener still counts as running: the flag,
    the callback and the thread stay, [isRunning] answers [True] and another
    [start] is refused, until [stop] is called. *)
Theorem X19_tap_failure_keeps_listener_running
    (trusted : bool) (err : Z) (args : list PyObject) (loop : Z)
    (callback : PyObject) (w : World) :
  (listenerStart trusted err args w).1 ≠ None →
  PyCallable_Check callback = true →
  eventTap (eventLoopThread None loop (listenerStart trusted err args w).2) = None
  ∧ runLoop (eventLoopThread None loop (listenerStart trusted err args w).2) = runLoop w
  ∧ listenerIsRunning (eventLoopThread None loop (listenerStart trusted err args w).2)
    = PyBool true
  ∧ callbackObj (eventLoopThread None loop (listenerStart trusted err args w).2)
    = callbackObj (listenerStart trusted err args w).2
  ∧ AlreadyRunning
      (listenerStart true 0 [callback]
         (eventLoopThread None loop (listenerStart trusted err args w).2))
  ∧ listenerIsRunning
      (listenerStop
         (eventLoopThread None loop (listenerStart trusted err args w).2)).2
    = PyBool false.
Proof.
  intros Hok Hcallable.
  destruct (listenerStart_success _ _ _ _ Hok) as (_ & Hrun & _).
  assert (runLoop (listenerStart trusted err args w).2 = runLoop w) as Hloop.
  { destruct (listenerStart_ok_inv _ _ _ _ Hok) as (fid & -> & -> & -> & Hstopped).
    unfold listenerStart, pthread_create. simpl. rewrite Hstopped. simpl.
    by destruct (callbackObj w) as [[]|]. }
  clear Hok. revert Hrun Hloop.
  generalize (listenerStart trusted err args w).2. intros w1 Hrun Hloop.
  unfold eventLoopThread. simpl. split; [done|]. split; [done|].
  split; [unfold listenerIsRunning; simpl; by rewrite Hrun|]. split; [done|].
  split.
  - unfold AlreadyRunning, fails_with, listenerStart. simpl.
    rewrite Hcallable, Hrun. done.
  - destruct (listenerStop_result (set_eventTap None w1)) as [_ Hflag].
    unfold listenerIsRunning. by rewrite Hflag.
Qed.

Lemma X19_tap_failure_keeps_listener_running_witness :
  eventTap (eventLoopThread None 88
              (listenerStart true 0 [example_callback] example_world).2) = None
  ∧ runLoop (eventLoopThread None 88
               (listenerStart true 0 [example_callback] example_world).2)
    = runLoop example_world
  ∧ listenerIsRunning
      (eventLoopThread None 88
         (listenerStart true 0 [example_callback] example_world).2)
    = PyBool true
  ∧ callbackObj
      (eventLoopThread None 88
         (listenerStart true 0 [example_callback] example_world).2)
    = callbackObj (listenerStart true 0 [example_callback] example_world).2
  ∧ AlreadyRunning
      (listenerStart true 0 [PyFunction 2%positive]
         (eventLoopThread None 88
            (listenerStart true 0 [example_callback] example_world).2))
  ∧ listenerIsRunning
      (listenerStop
         (eventLoopThread None 88
            (listenerStart true 0 [example_callback] example_world).2)).2
    = PyBool false.
Proof.
  apply (X19_tap_failure_keeps_listener_running true 0 [example_callback] 88
           (PyFunction 2%positive) example_world); [discriminate|reflexivity].
Defined.
